(** * fusion-report: the report generator [generate_report.py]

    A shallow embedding of [fusion_report/generate_report.py] and the
    properties of its classification pass, its report pages, its
    progress output and its command-line default.

    Python values are embedded as follows: [str] as [string], [len] and
    loop indices as [nat], the command-line integer as [Z], lists as
    [list], dictionaries as association lists in insertion order, and a
    raised exception as the [inl] branch of a result. *)

From Stdlib Require Import String Ascii List ZArith Lia Bool Arith.
From Stdlib Require Import Permutation.
From Stdlib Require DecimalString.
Import ListNotations.

Set Warnings "-register-all".

Local Open Scope string_scope.
Local Open Scope list_scope.

(** ** Python values *)

(** The values that cross the boundary to the collaborators of the
    module (rows of the database, chart data, page variables). *)
Inductive PyVal : Type :=
| PNone
| PInt (z : Z)
| PStr (s : string)
| PList (l : list PyVal)
| PDict (d : list (string * PyVal)).

(** [a == b] where [a] is a [str]: only an equal [str] compares equal. *)
Definition str_eq (a : string) (v : PyVal) : bool :=
  match v with
  | PStr b => String.eqb a b
  | _ => false
  end.

(** [a in l] for a [str] [a] and a list [l]. *)
Definition py_in (a : string) (l : list PyVal) : bool :=
  existsb (str_eq a) l.

Inductive Exception : Type :=
| DbError (msg : string)
| KeyError (key : string)
| TypeError (msg : string)
| ParserError (msg : string)
| SystemExit (code : Z).

Definition result (A : Type) : Type := (Exception + A)%type.

(** [d[key]] on an association list. *)
Fixpoint dict_get (key : string) (d : list (string * PyVal)) : result PyVal :=
  match d with
  | [] => inl (KeyError key)
  | (k, v) :: d' => if String.eqb k key then inr v else dict_get key d'
  end.

(** [x[key]] on a value: a [dict] is looked up, anything else is not
    subscriptable by a string. *)
Definition subscript (x : PyVal) (key : string) : result PyVal :=
  match x with
  | PDict d => dict_get key d
  | _ => inl (TypeError "object is not subscriptable by str")
  end.

(** ** Strings: [str.split] and [str.count] *)

Definition nl : string := String (ascii_of_nat 10) EmptyString.
Definition dq : string := String (ascii_of_nat 34) EmptyString.

(** Puts [c] in front of the first part of a split. *)
Definition cons_head (c : ascii) (parts : list string) : list string :=
  match parts with
  | [] => [String c EmptyString]
  | p :: ps => String c p :: ps
  end.

(** [s.split(sep)] for a non-empty [sep], scanning from the left for
    non-overlapping occurrences.  [skip] counts the characters of a
    matched separator that are still to be passed over. *)
Fixpoint split_go (sep : string) (skip : nat) (s : string) : list string :=
  match s with
  | EmptyString => [EmptyString]
  | String c s' =>
      match skip with
      | S k => split_go sep k s'
      | O =>
          if String.prefix sep s
          then EmptyString :: split_go sep (String.length sep - 1) s'
          else cons_head c (split_go sep 0 s')
      end
  end.

Definition split (sep s : string) : list string := split_go sep 0 s.

(** [s.count(sep)]: the number of non-overlapping occurrences of [sep]
    in [s], found from the left. *)
Fixpoint count_go (sep : string) (skip : nat) (s : string) : nat :=
  match s with
  | EmptyString => 0
  | String c s' =>
      match skip with
      | S k => count_go sep k s'
      | O =>
          if String.prefix sep s
          then S (count_go sep (String.length sep - 1) s')
          else count_go sep 0 s'
      end
  end.

Definition count (sep s : string) : nat := count_go sep 0 s.

(** [sep.join(parts)]. *)
Fixpoint join (sep : string) (parts : list string) : string :=
  match parts with
  | [] => EmptyString
  | [p] => p
  | p :: ps => p ++ sep ++ join sep ps
  end.

(** ** Report objects: [lib.graph], [lib.section], [lib.page] *)

(** One row of the table of fusions shown on the index page. *)
Record FusionRow : Type := {
  row_fusion : string;
  row_known : bool;
  row_tools : list bool
}.

(** What a section's [data] attribute holds. *)
Inductive SectionData : Type :=
| NoData
| Rows (rows : list PyVal)
| Detail (v : PyVal)
| FusionsTable (cutoff : Z) (table : list FusionRow).

Record Graph : Type := {
  graph_id : string;
  graph_title : string;
  graph_subtitle : string;
  graph_data : PyVal
}.

Record ReportSection : Type := {
  section_id : string;
  section_title : string;
  section_content : option string;
  section_data : SectionData;
  section_graphs : list Graph
}.

Record Page : Type := {
  page_title : string;
  page_variables : list (string * PyVal);
  partial_template : string;
  page_sections : list ReportSection
}.

(** [Section(section_id=.., title=.., content=..)]. *)
Definition new_section (id title : string) (content : option string) : ReportSection :=
  {| section_id := id; section_title := title; section_content := content;
     section_data := NoData; section_graphs := [] |}.

(** [section.data = d]. *)
Definition set_data (d : SectionData) (s : ReportSection) : ReportSection :=
  {| section_id := section_id s; section_title := section_title s;
     section_content := section_content s;
     section_data := d; section_graphs := section_graphs s |}.

(** [section.add_graph(g)]. *)
Definition add_graph (g : Graph) (s : ReportSection) : ReportSection :=
  {| section_id := section_id s; section_title := section_title s;
     section_content := section_content s;
     section_data := section_data s; section_graphs := section_graphs s ++ [g] |}.

(** [Page(title=.., page_variables=.., partial_template=..)]. *)
Definition new_page (title : string) (vars : list (string * PyVal)) (template : string) : Page :=
  {| page_title := title; page_variables := vars; partial_template := template;
     page_sections := [] |}.

(** [page.add_section(s)]. *)
Definition add_section (s : ReportSection) (p : Page) : Page :=
  {| page_title := page_title p; page_variables := page_variables p;
     partial_template := partial_template p;
     page_sections := page_sections p ++ [s] |}.

(** ** Command line *)

(** Minimum number of tools that have to detect a fusion, used as a
    filter in the dashboard. *)
Definition TOOL_DETECTION_CUTOFF : Z := 2.

(** The namespace [parse_args] returns. *)
Record Params : Type := {
  ericscript : option string;
  fusioncatcher : option string;
  starfusion : option string;
  pizzly : option string;
  squid : option string;
  sample : string;
  output : string;
  config : option string;
  tool_num : Z;
  database : option string
}.

(** What the command line supplies for each declared option: [Some v]
    when the option is given with value [v] (already converted by its
    [type]), [None] when it is absent. *)
Record CommandLine : Type := {
  arg_ericscript : option string;
  arg_fusioncatcher : option string;
  arg_starfusion : option string;
  arg_pizzly : option string;
  arg_squid : option string;
  arg_sample : option string;
  arg_output : option string;
  arg_config : option string;
  arg_tool_num : option Z;
  arg_database : option string
}.

(** An option declared with [default=d]. *)
Definition with_default {A : Type} (d : A) (o : option A) : A :=
  match o with
  | Some v => v
  | None => d
  end.

(** [parser.parse_args()] for the options [main] declares: [--sample]
    and [--output] are required, [--tool_num] defaults to
    [TOOL_DETECTION_CUTOFF], every other option defaults to [None]. *)
Definition parse_args (argv : CommandLine) : result Params :=
  match arg_sample argv, arg_output argv with
  | Some s, Some o =>
      inr {| ericscript := arg_ericscript argv;
             fusioncatcher := arg_fusioncatcher argv;
             starfusion := arg_starfusion argv;
             pizzly := arg_pizzly argv;
             squid := arg_squid argv;
             sample := s;
             output := o;
             config := arg_config argv;
             tool_num := with_default TOOL_DETECTION_CUTOFF (arg_tool_num argv);
             database := arg_database argv |}
  | _, _ => inl (SystemExit 2)
  end.

(** ** Aggregated fusions *)

(** Modelled from the spec: the class [ToolParser] of
    [helpers.tool_parser] is not part of the sources.  Its aggregate is
    a mapping from fusion identity to the calls of the tools that found
    it (tool name to call), kept in insertion order; iterating it yields
    the identities. *)
Definition ToolCalls : Type := list (string * PyVal).
Definition Fusions : Type := list (string * ToolCalls).

Definition fusion_ids (fusions : Fusions) : list string := map fst fusions.

(** Detection count of a fusion: the number of tools present in its
    record. *)
Definition detection_count (calls : ToolCalls) : nat := List.length calls.

Definition max_detection_count (fusions : Fusions) : nat :=
  fold_right (fun f m => Nat.max (detection_count (snd f)) m) 0 fusions.

(** Modelled from the spec: [filter_by_tool_count] of the classifier
    (in the sources it is done inside [create_fusions_table] of
    [helpers.core], which is not part of the sources).  A cutoff above
    the largest detection count disables the filter; otherwise the
    fusions found by at least [minimum_count] tools are kept. *)
Definition filter_by_tool_count (fusions : Fusions) (minimum_count : Z) : Fusions :=
  if (Z.of_nat (max_detection_count fusions) <? minimum_count)%Z
  then fusions
  else filter (fun f => (minimum_count <=? Z.of_nat (detection_count (snd f)))%Z) fusions.

Definition has_tool (calls : ToolCalls) (tool : string) : bool :=
  existsb (fun c => String.eqb (fst c) tool) calls.

Definition is_known (known_fusions : list string) (fusion : string) : bool :=
  existsb (String.eqb fusion) known_fusions.

(** Modelled from the spec: [create_fusions_table] of [helpers.core] is
    not part of the sources.  The table lists the fusions that pass the
    tool-count filter, each with its known flag and one presence flag
    per tool. *)
Definition create_fusions_table (fusions : Fusions) (tools : list string)
    (known_fusions : list string) (cutoff : Z) : SectionData :=
  FusionsTable cutoff
    (map (fun f => {| row_fusion := fst f;
                      row_known := is_known known_fusions (fst f);
                      row_tools := map (has_tool (snd f)) tools |})
         (filter_by_tool_count fusions cutoff)).

(** ** Collaborators *)

(** The class [ToolParser] of [helpers.tool_parser], by the methods
    the module calls.  [tp_parse tool path] reads one tool's output into
    the aggregate and may raise. *)
Class ToolParserOps (TP : Type) : Type := {
  tp_new : TP;
  tp_parse : string -> option string -> TP -> result TP;
  get_fusions : TP -> Fusions;
  get_fusion : TP -> string -> PyVal;
  get_tools : TP -> list string;
  get_tools_count : TP -> PyVal
}.

(** The class [Db] of [lib.db], by the methods the module calls.  A
    call may change the connection and may raise. *)
Class DbOps (Conn : Type) : Type := {
  db_new : option string -> Conn;
  db_connect : string -> Conn -> Conn * result unit;
  db_select : string -> option (list string) -> Conn -> Conn * result (list PyVal)
}.

(** The helpers of [helpers.core] that the module calls: the chart
    builders, and the progress bar by what a call of it does to its
    caller, [bar_outcome iteration total length]: it returns or it
    raises. *)
Class CoreOps : Type := {
  tool_detection_chart : PyVal -> list string -> PyVal;
  known_vs_unknown_chart : nat -> nat -> PyVal;
  distribution_chart : Fusions -> list string -> PyVal;
  create_ppi_graph : list PyVal -> PyVal;
  bar_outcome : nat -> nat -> nat -> result unit
}.

(** A call made on the [Db] object. *)
Inductive DbCall : Type :=
| Connect (name : string)
| Select (query : string) (query_params : option (list string)).

(** ** State of a run *)

(** Everything a run of [generate_report] reads and writes: the
    database connection and the calls made on it, the pages added to
    the [Report], the calls of the progress bar, the number of
    [sleep(0.1)] calls, the lines printed, the identities tested against
    the reference list, and the two local lists of the classification. *)
Record State (Conn : Type) : Type := mkState {
  db : Conn;
  db_calls : list DbCall;
  report : list Page;
  progress : list (nat * nat * nat);
  slept : nat;
  stdout : list string;
  lookups : list string;
  known_fusions : list string;
  unknown_fusions : list string
}.

Arguments mkState {Conn}.
Arguments db {Conn}.
Arguments db_calls {Conn}.
Arguments report {Conn}.
Arguments progress {Conn}.
Arguments slept {Conn}.
Arguments stdout {Conn}.
Arguments lookups {Conn}.
Arguments known_fusions {Conn}.
Arguments unknown_fusions {Conn}.

(** ** The monad of a run: state and exceptions *)

Definition M (Conn A : Type) : Type := State Conn -> State Conn * result A.

Definition ret {Conn A : Type} (a : A) : M Conn A :=
  fun st => (st, inr a).

Definition raise {Conn A : Type} (e : Exception) : M Conn A :=
  fun st => (st, inl e).

Definition bind {Conn A B : Type} (m : M Conn A) (k : A -> M Conn B) : M Conn B :=
  fun st =>
    match m st with
    | (st', inr a) => k a st'
    | (st', inl e) => (st', inl e)
    end.

(** Reads a component of the state. *)
Definition gets {Conn A : Type} (f : State Conn -> A) : M Conn A :=
  fun st => (st, inr (f st)).

(** A computation that only may raise. *)
Definition lift {Conn A : Type} (r : result A) : M Conn A :=
  fun st => (st, r).

Declare Scope run_scope.
Delimit Scope run_scope with run.
Notation "x <- m ;; k" := (bind m (fun x => k))
  (at level 61, m at next level, right associativity) : run_scope.
Notation "m ;; k" := (bind m (fun _ => k))
  (at level 61, right associativity) : run_scope.
Local Open Scope run_scope.

Section Effects.
Context {Conn : Type} {db_ops : DbOps Conn} {core_ops : CoreOps}.

(** [db.connect(name)]. *)
Definition connect (name : string) : M Conn unit :=
  fun st =>
    let (c, r) := db_connect name (db st) in
    (mkState c (db_calls st ++ [Connect name]) (report st) (progress st)
       (slept st) (stdout st) (lookups st) (known_fusions st) (unknown_fusions st), r).

(** [db.select(query, query_params)]. *)
Definition select (query : string) (query_params : option (list string))
    : M Conn (list PyVal) :=
  fun st =>
    let (c, r) := db_select query query_params (db st) in
    (mkState c (db_calls st ++ [Select query query_params]) (report st) (progress st)
       (slept st) (stdout st) (lookups st) (known_fusions st) (unknown_fusions st), r).

(** Modelled from the spec: [Report.add_page] of [lib.report] is not
    part of the sources; the report keeps the pages in the order they
    are added. *)
Definition add_page (page : Page) : M Conn unit :=
  fun st =>
    (mkState (db st) (db_calls st) (report st ++ [page]) (progress st)
       (slept st) (stdout st) (lookups st) (known_fusions st) (unknown_fusions st), inr tt).

(** [print_progress_bar(i, total, width)] of [helpers.core], which is
    not part of the sources: the call is recorded, and it returns or
    raises as the helper does.  The module calls it without a guard, so
    an exception of the bar is an exception of the caller. *)
Definition print_progress_bar (i total width : nat) : M Conn unit :=
  fun st =>
    (mkState (db st) (db_calls st) (report st) (progress st ++ [(i, total, width)])
       (slept st) (stdout st) (lookups st) (known_fusions st) (unknown_fusions st),
     bar_outcome i total width).

(** A run without progress output. *)
Definition no_progress_bar (i total width : nat) : M Conn unit := ret tt.

(** [sleep(0.1)]: time is not modelled, the calls are counted. *)
Definition sleep : M Conn unit :=
  fun st =>
    (mkState (db st) (db_calls st) (report st) (progress st)
       (S (slept st)) (stdout st) (lookups st) (known_fusions st) (unknown_fusions st), inr tt).

(** [print(line)]. *)
Definition print (line : string) : M Conn unit :=
  fun st =>
    (mkState (db st) (db_calls st) (report st) (progress st)
       (slept st) (stdout st ++ [line]) (lookups st) (known_fusions st) (unknown_fusions st),
     inr tt).

(** [fusion not in db_fusions], one membership test against the
    reference list. *)
Definition not_in (fusion : string) (db_fusions : list PyVal) : M Conn bool :=
  fun st =>
    (mkState (db st) (db_calls st) (report st) (progress st)
       (slept st) (stdout st) (lookups st ++ [fusion]) (known_fusions st) (unknown_fusions st),
     inr (negb (py_in fusion db_fusions))).

(** [known_fusions.append(fusion)]. *)
Definition append_known (fusion : string) : M Conn unit :=
  fun st =>
    (mkState (db st) (db_calls st) (report st) (progress st)
       (slept st) (stdout st) (lookups st) (known_fusions st ++ [fusion]) (unknown_fusions st),
     inr tt).

(** [unknown_fusions.append(fusion)]. *)
Definition append_unknown (fusion : string) : M Conn unit :=
  fun st =>
    (mkState (db st) (db_calls st) (report st) (progress st)
       (slept st) (stdout st) (lookups st) (known_fusions st) (unknown_fusions st ++ [fusion]),
     inr tt).

End Effects.

(** ** The texts of the module *)

(** [str(n)] for an integer. *)
Definition str_of_int (n : Z) : string :=
  DecimalString.NilZero.string_of_int (Z.to_int n).

Definition variations_query : string :=
  String.concat EmptyString
    [nl;
     "        SELECT * FROM TCGA_ChiTaRS_combined_fusion_information_on_hg19";
     nl;
     "        WHERE h_gene = ? AND t_gene = ?"].

Definition transcripts_query : string :=
  String.concat EmptyString
    [nl;
     "        SELECT * FROM TCGA_ChiTaRS_combined_fusion_ORF_analyzed_gencode_h19v19";
     nl;
     "        WHERE h_gene = ? AND t_gene = ?"].

Definition ppi_query : string :=
  String.concat EmptyString
    [nl;
     "        SELECT DISTINCT h_gene, h_gene_interactions, t_gene, t_gene_interactions";
     nl;
     "        FROM fusion_ppi WHERE h_gene = ? AND t_gene = ?"].

Definition drugs_query : string :=
  String.concat EmptyString
    [nl;
     "        SELECT gene_symbol, drug_status, drug_bank_id, drug_name, drug_action,";
     nl;
     "        fusion_uniprot_related_drugs.uniprot_acc FROM fusion_uniprot_related_drugs";
     nl;
     "        INNER JOIN uniprot_gsymbol";
     nl;
     "        ON fusion_uniprot_related_drugs.uniprot_acc = uniprot_gsymbol.uniprot_acc";
     nl;
     "        WHERE gene_symbol = ? OR gene_symbol = ?";
     nl;
     "        "].

Definition diseases_query : string :=
  String.concat EmptyString
    [nl;
     "        SELECT * FROM fgene_disease_associations";
     nl;
     "        WHERE (gene = ? OR gene = ?)";
     nl;
     "        AND disease_prob > 0.2001 ORDER BY disease_prob DESC"].

Definition reference_query : string :=
  String.concat EmptyString
    [nl;
     "        SELECT DISTINCT (h_gene || ";
     dq;
     "--";
     dq;
     " || t_gene) as fusion_pair ";
     nl;
     "        FROM TCGA_ChiTaRS_combined_fusion_information_on_hg19";
     nl;
     "        "].

Definition variations_content : string :=
  String.concat EmptyString
    [nl;
     "            Fusion gene information taken from three different sources ChiTars (NAR, 2018), ";
     nl;
     "            tumorfusions (NAR, 2018) and Gao et al. (Cell, 2018). Genome coordinates are ";
     nl;
     "            lifted-over GRCh37/hg19 version. <br>Note: LD (Li Ding group, RV: Roel Verhaak group, ";
     nl;
     "            ChiTaRs fusion database).";
     nl;
     "        "].

Definition transcripts_content : string :=
  String.concat EmptyString
    [nl;
     "            Open reading frame (ORF) analsis of fusion genes based on Ensembl gene ";
     nl;
     "            isoform structure.";
     nl;
     "        "].

Definition ppi_content : string :=
  String.concat EmptyString
    [nl;
     "            Protein-protein interactors with each fusion partner protein in wild-type.";
     nl;
     "            Data are taken from <a href=";
     dq;
     "http://chippi.md.biu.ac.il/index.html";
     dq;
     ">here</a>";
     nl;
     "        "].

Definition drugs_content : string :=
  String.concat EmptyString
    [nl;
     "            Drugs targeting genes involved in this fusion gene ";
     nl;
     "            (DrugBank Version 5.1.0 2018-04-02).";
     nl;
     "        "].

(** The text of the fusion list section, [.format(tool=.., sample=..)]. *)
Definition fusion_list_content (tool sample : string) : string :=
  String.concat EmptyString
    [nl;
     "            Filters fusions found by at least "; tool;
     " tools. If number of chosen tools is less ";
     nl;
     "            than "; tool;
     " the filter is disabled. The whole list can be found in ";
     nl;
     "            <code>results/Report-"; sample; "/fusions.txt</code>.";
     nl;
     "            "].

(** ** The functions of the module *)

Section GenerateReport.
Context {TP Conn : Type} {parser_ops : ToolParserOps TP} {db_ops : DbOps Conn}
  {core_ops : CoreOps}.

(** Function calling parser of individual tool. *)
Definition parse (params : Params) : result TP :=
  match tp_parse "ericscript" (ericscript params) tp_new with
  | inl e => inl e
  | inr t1 =>
  match tp_parse "starfusion" (starfusion params) t1 with
  | inl e => inl e
  | inr t2 =>
  match tp_parse "fusioncatcher" (fusioncatcher params) t2 with
  | inl e => inl e
  | inr t3 =>
  match tp_parse "pizzly" (pizzly params) t3 with
  | inl e => inl e
  | inr t4 => tp_parse "squid" (squid params) t4
  end end end end.

(** Helper function for generating index.html page. *)
Definition generate_index (params : Params) (parser : TP)
    (known_fusions unknown_fusions : list string) : Page :=
  let known_sum := List.length known_fusions in
  let unknown_sum := List.length unknown_fusions in
  let index_page :=
    new_page "index"
      [("sample", PStr (sample params));
       ("fusions_sum", PInt (Z.of_nat (unknown_sum + known_sum)));
       ("known_fusion_sum", PInt (Z.of_nat known_sum));
       ("fusion_tools", PList (map PStr (get_tools parser)))]
      "index" in
  let dashboard_section :=
    new_section "dashboard" "Dashboard fusion summary" None in
  let dashboard_section :=
    add_graph
      {| graph_id := "tool_detection_chart";
         graph_title := "Tool detection";
         graph_subtitle := "Displays number of found fusions per tool.";
         graph_data := tool_detection_chart (get_tools_count parser) (get_tools parser) |}
      dashboard_section in
  let dashboard_section :=
    add_graph
      {| graph_id := "known_vs_unknown_chart";
         graph_title := "Known Vs Unknown";
         graph_subtitle :=
           "Shows the ration between found and unknown missing fusions in the local database.";
         graph_data := known_vs_unknown_chart known_sum unknown_sum |}
      dashboard_section in
  let dashboard_section :=
    add_graph
      {| graph_id := "distribution_chart";
         graph_title := "Tool detection distribution";
         graph_subtitle := "Sum of counts detected by different tools per fusion.";
         graph_data := distribution_chart (get_fusions parser) (get_tools parser) |}
      dashboard_section in
  let index_page := add_section dashboard_section index_page in
  let fusion_list_section :=
    new_section "fusion_list" "List of detected fusions"
      (Some (fusion_list_content (str_of_int (tool_num params)) (sample params))) in
  let fusion_list_section :=
    set_data
      (create_fusions_table (get_fusions parser) (get_tools parser)
         known_fusions (tool_num params))
      fusion_list_section in
  let index_page := add_section fusion_list_section index_page in
  index_page.

(** Helper function for generating <fusion>.html page. *)
Definition generate_fusion_page (params : Params) (parser : TP) (fusion : string)
    : M Conn Page :=
  let fusion_page := new_page fusion [("sample", PStr (sample params))] "fusion" in
  let fusion_pair := split "--" fusion in
  let detail_section :=
    new_section "details" "Detail results from fusion detection tools"
      (Some "Some description for each tool?") in
  let detail_section := set_data (Detail (get_fusion parser fusion)) detail_section in
  let fusion_page := add_section detail_section fusion_page in
  let variations_section :=
    new_section "variations" "Fusion gene variations" (Some variations_content) in
  rows <- select variations_query (Some fusion_pair) ;;
  let variations_section := set_data (Rows rows) variations_section in
  let fusion_page := add_section variations_section fusion_page in
  let transcripts_section :=
    new_section "transcripts" "Ensembl transcripts" (Some transcripts_content) in
  rows <- select transcripts_query (Some fusion_pair) ;;
  let transcripts_section := set_data (Rows rows) transcripts_section in
  let fusion_page := add_section transcripts_section fusion_page in
  let ppi_section :=
    new_section "ppi" "Chimeric Protein-Protein interactions" (Some ppi_content) in
  rows <- select ppi_query (Some fusion_pair) ;;
  let ppi_section := set_data (Rows rows) ppi_section in
  let ppi_section :=
    add_graph
      {| graph_id := "ppi_graph";
         graph_title := "Network graph of gene interactions";
         graph_subtitle := EmptyString;
         graph_data := create_ppi_graph rows |}
      ppi_section in
  let fusion_page := add_section ppi_section fusion_page in
  let drugs_section :=
    new_section "targeting_drugs" "Targeting drugs" (Some drugs_content) in
  rows <- select drugs_query (Some fusion_pair) ;;
  let drugs_section := set_data (Rows rows) drugs_section in
  let fusion_page := add_section drugs_section fusion_page in
  let diseases_section :=
    new_section "related_diseases" "Related diseases"
      (Some "Diseases associated with fusion partners (DisGeNet 4.0).") in
  rows <- select diseases_query (Some fusion_pair) ;;
  let diseases_section := set_data (Rows rows) diseases_section in
  let fusion_page := add_section diseases_section fusion_page in
  ret fusion_page.

(** [[x['fusion_pair'] for x in rows]]. *)
Fixpoint fusion_pairs (rows : list PyVal) : result (list PyVal) :=
  match rows with
  | [] => inr []
  | x :: rows' =>
      match subscript x "fusion_pair" with
      | inl e => inl e
      | inr v =>
          match fusion_pairs rows' with
          | inl e => inl e
          | inr vs => inr (v :: vs)
          end
      end
  end.

(** Get all fusions from DB: the reference list of [generate_report]. *)
Definition get_db_fusions : M Conn (list PyVal) :=
  connect "fusiongdb" ;;
  db_fusions <- select reference_query None ;;
  lift (fusion_pairs db_fusions).

Section Loop.
Variable progress_bar : nat -> nat -> nat -> M Conn unit.

(** The body of the loop of [generate_report] for the fusion at
    index [i]. *)
Definition classify_one (params : Params) (parser : TP) (db_fusions : list PyVal)
    (total i : nat) (fusion : string) : M Conn unit :=
  absent <- not_in fusion db_fusions ;;
  if absent then
    append_unknown fusion ;;
    sleep ;;
    progress_bar (i + 1) total 50
  else
    append_known fusion ;;
    fusion_page <- generate_fusion_page params parser fusion ;;
    add_page fusion_page ;;
    sleep ;;
    progress_bar (i + 1) total 50.

(** [for i, fusion in enumerate(fusions)], from index [i] on. *)
Fixpoint classify_from (params : Params) (parser : TP) (db_fusions : list PyVal)
    (total i : nat) (fusions : list string) : M Conn unit :=
  match fusions with
  | [] => ret tt
  | fusion :: rest =>
      classify_one params parser db_fusions total i fusion ;;
      classify_from params parser db_fusions total (S i) rest
  end.

(** The state in which [generate_report] starts: the [Db] object is
    created, the two lists and the report are empty. *)
Definition initial_state (params : Params) : State Conn :=
  mkState (db_new (database params)) [] [] [] 0 [] [] [] [].

(** The statements of [generate_report] as one computation. *)
Definition generate_report_body (params : Params) : M Conn unit :=
  parser <- lift (parse params) ;;
  db_fusions <- get_db_fusions ;;
  let fusions := fusion_ids (get_fusions parser) in
  progress_bar 0 (List.length fusions) 50 ;;
  classify_from params parser db_fusions (List.length fusions) 0 fusions ;;
  known <- gets known_fusions ;;
  unknown <- gets unknown_fusions ;;
  let index_page := generate_index params parser known unknown in
  add_page index_page ;;
  print ("The report for `sample` " ++ sample params ++ " was generated in "
         ++ output params ++ ".").

Definition generate_report_with (params : Params) : State Conn * result unit :=
  generate_report_body params (initial_state params).

Definition main_with (argv : CommandLine) : option (State Conn) * result unit :=
  match parse_args argv with
  | inl e => (None, inl e)
  | inr params =>
      let (st, r) := generate_report_with params in (Some st, r)
  end.

End Loop.

(** Main function for generating report. *)
Definition generate_report (params : Params) : State Conn * result unit :=
  generate_report_with print_progress_bar params.

(** Main function for processing command line arguments. *)
Definition main (argv : CommandLine) : option (State Conn) * result unit :=
  main_with print_progress_bar argv.

End GenerateReport.

(** ** Notions for stating the properties *)

(** The identities found in the reference list, and the others, in the
    order of the parsed list. *)
Definition found (db_fusions : list PyVal) (fusions : list string) : list string :=
  filter (fun f => py_in f db_fusions) fusions.

Definition missing (db_fusions : list PyVal) (fusions : list string) : list string :=
  filter (fun f => negb (py_in f db_fusions)) fusions.

(** The queries of one fusion page, in the order they are made. *)
Definition fusion_page_calls (fusion : string) : list DbCall :=
  let fusion_pair := split "--" fusion in
  [Select variations_query (Some fusion_pair);
   Select transcripts_query (Some fusion_pair);
   Select ppi_query (Some fusion_pair);
   Select drugs_query (Some fusion_pair);
   Select diseases_query (Some fusion_pair)].

(** The calls of the progress bar inside the loop, from index [i] on. *)
Definition progress_steps (total i n : nat) : list (nat * nat * nat) :=
  map (fun k => (k + 1, total, 50)) (seq i n).

Section RunNotions.
Context {TP Conn : Type} {parser_ops : ToolParserOps TP} {db_ops : DbOps Conn}
  {core_ops : CoreOps}.

(** The identities the parser returns for [params] ([[]] when parsing
    raises). *)
Definition parsed_fusions (params : Params) : list string :=
  match parse params with
  | inr parser => fusion_ids (get_fusions parser)
  | inl _ => []
  end.

(** The reference list [db_fusions] of a run for [params] ([[]] when the
    lookup raises). *)
Definition reference_list (params : Params) : list PyVal :=
  match snd (get_db_fusions (initial_state params)) with
  | inr db_fusions => db_fusions
  | inl _ => []
  end.

(** What a computation leaves alone when it only talks to the
    database. *)
Definition only_db (st st' : State Conn) : Prop :=
  report st' = report st /\ progress st' = progress st /\ slept st' = slept st /\
  stdout st' = stdout st /\ lookups st' = lookups st /\
  known_fusions st' = known_fusions st /\ unknown_fusions st' = unknown_fusions st.

(** The line printed at the end of a run. *)
Definition final_message (params : Params) : string :=
  ("The report for `sample` " ++ sample params ++ " was generated in "
   ++ output params ++ ".")%string.

(** The state of a run that has completed: the parser that was built
    and the fusion pages that were added, with what holds of the state. *)
Inductive completed (params : Params) (st : State Conn) : Prop :=
| Completed (parser : TP) (pages : list Page)
    (run_parse : parse params = inr parser)
    (run_known :
       known_fusions st = found (reference_list params) (parsed_fusions params))
    (run_unknown :
       unknown_fusions st = missing (reference_list params) (parsed_fusions params))
    (run_lookups : lookups st = parsed_fusions params)
    (run_progress :
       progress st
       = (0, List.length (parsed_fusions params), 50)
         :: progress_steps (List.length (parsed_fusions params)) 0
              (List.length (parsed_fusions params)))
    (run_slept : slept st = List.length (parsed_fusions params))
    (run_stdout : stdout st = [final_message params])
    (run_db_calls :
       db_calls st
       = [Connect "fusiongdb"; Select reference_query None]
         ++ flat_map fusion_page_calls (known_fusions st))
    (run_report :
       report st
       = pages ++ [generate_index params parser (known_fusions st) (unknown_fusions st)])
    (run_titles : map page_title pages = known_fusions st)
    (run_templates : Forall (fun p => partial_template p = "fusion") pages).

Definition db_never_raises : Prop :=
  (forall name c, snd (db_connect name c) = inr tt) /\
  (forall q p c, exists rows, snd (db_select q p c) = inr rows).

Definition bar_never_raises : Prop :=
  forall i total width, bar_outcome i total width = inr tt.

(** The state with the record of the progress calls erased. *)
Definition without_progress (st : State Conn) : State Conn :=
  mkState (db st) (db_calls st) (report st) [] (slept st) (stdout st)
    (lookups st) (known_fusions st) (unknown_fusions st).

(** A call of the progress bar that returned. *)
Definition bar_returned (call : nat * nat * nat) : Prop :=
  bar_outcome (fst (fst call)) (snd (fst call)) (snd call) = inr tt.

(** [quiet] does what [loud] does, the progress calls apart, as long
    as the calls of the bar that [loud] makes return: same result, same
    exception, same state otherwise. *)
Definition same_but_progress {A : Type} (loud quiet : M Conn A) : Prop :=
  forall st,
  exists calls,
    progress (fst (loud st)) = progress st ++ calls /\
    (Forall bar_returned calls ->
     quiet (without_progress st)
     = (without_progress (fst (loud st)), snd (loud st))).

End RunNotions.

Arguments same_but_progress Conn {core_ops A} loud quiet.

(** ** A reference table, a database over it and a small parser *)

(** The rows of the reference table, by head and tail gene. *)
Definition ReferenceTable : Type := list (string * string).

(** The serialised identity of a gene pair, as the reference query
    builds it from a row: [h_gene || "--" || t_gene]. *)
Definition identity (h_gene t_gene : string) : string :=
  (h_gene ++ "--" ++ t_gene)%string.

(** The identities of the rows of a table, each once. *)
Definition distinct_identities (table : ReferenceTable) : list string :=
  nodup string_dec (map (fun row => identity (fst row) (snd row)) table).

(** What the reference query returns on a table: one row per distinct
    identity, under the column name [fusion_pair]. *)
Definition reference_rows (table : ReferenceTable) : list PyVal :=
  map (fun s => PDict [("fusion_pair", PStr s)]) (distinct_identities table).

(** The rows of the table for one gene pair. *)
Definition rows_of_pair (table : ReferenceTable) (h t : string) : list PyVal :=
  map (fun row => PDict [("h_gene", PStr (fst row)); ("t_gene", PStr (snd row))])
      (filter (fun row => String.eqb (fst row) h && String.eqb (snd row) t) table).

(** A database that holds a reference table and nothing else.  The
    reference query takes no parameter; each other query of the module
    has two placeholders and is refused unless it is given two
    parameters. *)
Definition table_db (table : ReferenceTable) : DbOps unit :=
  {| db_new := fun _ => tt;
     db_connect := fun _ c => (c, inr tt);
     db_select := fun query query_params c =>
       if String.eqb query reference_query then (c, inr (reference_rows table))
       else
         match query_params with
         | Some [h; t] =>
             (c, inr (if String.eqb query variations_query
                      then rows_of_pair table h t else []))
         | _ => (c, inl (DbError "Incorrect number of bindings supplied"))
         end |}.

(** A database that cannot be reached. *)
Definition down_db : DbOps unit :=
  {| db_new := fun _ => tt;
     db_connect := fun _ c => (c, inl (DbError "unable to open database file"));
     db_select := fun _ _ c => (c, inl (DbError "not connected")) |}.

(** Modelled from the spec: the merge of the aggregator.  A call of
    [tool] for [fusion] goes into the record of [fusion], in the slot
    of [tool]; a later call of the same tool replaces the earlier one. *)
Fixpoint put_call (tool : string) (call : PyVal) (calls : ToolCalls) : ToolCalls :=
  match calls with
  | [] => [(tool, call)]
  | (t, c) :: calls' =>
      if String.eqb t tool then (t, call) :: calls'
      else (t, c) :: put_call tool call calls'
  end.

Fixpoint aggregate (tool fusion : string) (call : PyVal) (fusions : Fusions) : Fusions :=
  match fusions with
  | [] => [(fusion, [(tool, call)])]
  | (f, calls) :: fusions' =>
      if String.eqb f fusion then (f, put_call tool call calls) :: fusions'
      else (f, calls) :: aggregate tool fusion call fusions'
  end.

(** A parser for inputs of one call each: the input of a tool names
    the fusion the tool reports, and an absent input adds nothing. *)
Definition one_call_parser : ToolParserOps (list string * Fusions) :=
  {| tp_new := ([], []);
     tp_parse := fun tool input t =>
       match input with
       | None => inr t
       | Some fusion => inr (fst t ++ [tool], aggregate tool fusion PNone (snd t))
       end;
     get_fusions := fun t => snd t;
     get_fusion := fun t fusion =>
       match find (fun f => String.eqb (fst f) fusion) (snd t) with
       | Some f => PDict (snd f)
       | None => PNone
       end;
     get_tools := fun t => fst t;
     get_tools_count := fun t => PInt (Z.of_nat (List.length (fst t))) |}.

(** Charts that keep the numbers they are given. *)
Definition plain_charts : CoreOps :=
  {| tool_detection_chart := fun counts tools => PList [counts; PList (map PStr tools)];
     known_vs_unknown_chart := fun k u => PList [PInt (Z.of_nat k); PInt (Z.of_nat u)];
     distribution_chart := fun fusions tools =>
       PList (map (fun f => PInt (Z.of_nat (detection_count (snd f)))) fusions);
     create_ppi_graph := fun rows => PList rows;
     bar_outcome := fun _ _ _ => inr tt |}.

(** The command line of the scenario of the specification: two tools
    report [ABC--XYZ], a third one reports [DEF--UVW]. *)
Definition scenario_argv : CommandLine :=
  {| arg_ericscript := Some "ABC--XYZ";
     arg_fusioncatcher := None;
     arg_starfusion := Some "ABC--XYZ";
     arg_pizzly := Some "DEF--UVW";
     arg_squid := None;
     arg_sample := Some "S1";
     arg_output := Some "out";
     arg_config := None;
     arg_tool_num := None;
     arg_database := None |}.

Definition scenario_params : Params :=
  {| ericscript := Some "ABC--XYZ";
     fusioncatcher := None;
     starfusion := Some "ABC--XYZ";
     pizzly := Some "DEF--UVW";
     squid := None;
     sample := "S1";
     output := "out";
     config := None;
     tool_num := 2;
     database := None |}.

(** What the parser holds after the inputs of the scenario. *)
Definition scenario_parser : list string * Fusions :=
  (["ericscript"; "starfusion"; "pizzly"],
   [("ABC--XYZ", [("ericscript", PNone); ("starfusion", PNone)]);
    ("DEF--UVW", [("pizzly", PNone)])]).

(** The reference table of the scenario knows [ABC--XYZ] only. *)
Definition scenario_table : ReferenceTable := [("ABC", "XYZ")].

Abbreviation scenario_run :=
  (@generate_report _ _ one_call_parser (table_db scenario_table) plain_charts
     scenario_params).

(** The scenario with a database that cannot be reached. *)
Abbreviation failed_run :=
  (@generate_report _ _ one_call_parser down_db plain_charts scenario_params).

(** A table with a head gene that holds the separator, and two tools
    that report [ABC--XYZ] and [A--B--C]. *)
Definition nested_table : ReferenceTable := [("ABC", "XYZ"); ("A--B", "C")].

Definition nested_params : Params :=
  {| ericscript := Some "ABC--XYZ";
     fusioncatcher := None;
     starfusion := Some "A--B--C";
     pizzly := None;
     squid := None;
     sample := "S1";
     output := "out";
     config := None;
     tool_num := 2;
     database := None |}.

Abbreviation nested_run :=
  (@generate_report _ _ one_call_parser (table_db nested_table) plain_charts
     nested_params).

(** ** Well-formed queries *)

(** The number of [?] placeholders of a query. *)
Definition placeholders (query : string) : nat := count "?" query.

(** A call is well formed when it binds as many parameters as the
    query has placeholders. *)
Definition well_formed (c : DbCall) : Prop :=
  match c with
  | Connect _ => True
  | Select query None => placeholders query = 0
  | Select query (Some query_params) => placeholders query = List.length query_params
  end.

(** ** Gene pairs and their identities *)

(** The reference list holds the serialised identities of the rows of
    [table], and nothing else that is a string. *)
Definition reference_holds (table : ReferenceTable) (db_fusions : list PyVal) : Prop :=
  forall s, In (PStr s) db_fusions <-> exists h t, In (h, t) table /\ s = identity h t.

(** A gene pair whose serialised identity splits back into the pair. *)
Definition unambiguous (h t : string) : Prop :=
  split "--" (identity h t) = [h; t].

(** A table whose only row has a head gene that ends in a hyphen, and
    a tool that reports the pair of [A] and [-B]. *)
Definition hyphen_table : ReferenceTable := [("A-", "B")].

Definition hyphen_params : Params :=
  {| ericscript := None;
     fusioncatcher := None;
     starfusion := None;
     pizzly := Some (identity "A" "-B");
     squid := None;
     sample := "S1";
     output := "out";
     config := None;
     tool_num := 2;
     database := None |}.

Abbreviation hyphen_run :=
  (@generate_report _ _ one_call_parser (table_db hyphen_table) plain_charts
     hyphen_params).

(** ** Runs that end with an exception *)

Section OutcomeNotions.
Context {TP Conn : Type} {parser_ops : ToolParserOps TP} {db_ops : DbOps Conn}
  {core_ops : CoreOps}.

(** What the loop has done to the state when the page of [f] raised,
    after the loop had gone through [done], starting at index [i]: [f]
    was tested and appended to the known list, [k] of the queries of its
    page were made, and nothing else was done for it. *)
Definition failed_on (db_fusions : list PyVal) (total i : nat) (done : list string)
    (f : string) (st st' : State Conn) : Prop :=
  py_in f db_fusions = true /\
  known_fusions st' = known_fusions st ++ found db_fusions done ++ [f] /\
  unknown_fusions st' = unknown_fusions st ++ missing db_fusions done /\
  lookups st' = lookups st ++ done ++ [f] /\
  progress st' = progress st ++ progress_steps total i (List.length done) /\
  slept st' = slept st + List.length done /\
  stdout st' = stdout st /\
  (exists k, 1 <= k <= 5 /\
     db_calls st'
     = db_calls st ++ flat_map fusion_page_calls (found db_fusions done)
       ++ firstn k (fusion_page_calls f)) /\
  exists pages,
    report st' = report st ++ pages /\
    map page_title pages = found db_fusions done /\
    Forall (fun p => partial_template p = "fusion") pages.

(** The state of a run that ended with the exception [e]: raised by
    the parser, by the reference lookup, by the page of a known fusion
    [f] after the fusions [done], or by the call of the progress bar
    that follows the fusions [done]. *)
Inductive failed (params : Params) (st : State Conn) (e : Exception) : Prop :=
| FailedParse
    (fail_parse : parse params = inl e)
    (fail_state : st = initial_state params)
| FailedLookup (parser : TP)
    (fail_parse : parse params = inr parser)
    (fail_lookup : get_db_fusions (initial_state params) = (st, inl e))
| FailedPage (parser : TP) (done : list string) (f : string) (rest : list string)
    (fail_parse : parse params = inr parser)
    (fail_at : parsed_fusions params = done ++ f :: rest)
    (fail_known_fusion : In (PStr f) (reference_list params))
    (fail_known :
       known_fusions st = found (reference_list params) done ++ [f])
    (fail_unknown :
       unknown_fusions st = missing (reference_list params) done)
    (fail_lookups : lookups st = done ++ [f])
    (fail_progress :
       progress st
       = (0, List.length (parsed_fusions params), 50)
         :: progress_steps (List.length (parsed_fusions params)) 0 (List.length done))
    (fail_slept : slept st = List.length done)
    (fail_stdout : stdout st = [])
    (fail_db_calls :
       exists k, 1 <= k <= 5 /\
         db_calls st
         = [Connect "fusiongdb"; Select reference_query None]
           ++ flat_map fusion_page_calls (found (reference_list params) done)
           ++ firstn k (fusion_page_calls f))
    (fail_titles :
       map page_title (report st) = found (reference_list params) done)
    (fail_templates : Forall (fun p => partial_template p = "fusion") (report st))
| FailedBar (parser : TP) (done rest : list string)
    (fail_parse : parse params = inr parser)
    (fail_at : parsed_fusions params = done ++ rest)
    (fail_bar :
       bar_outcome (List.length done) (List.length (parsed_fusions params)) 50
       = inl e)
    (fail_known : known_fusions st = found (reference_list params) done)
    (fail_unknown : unknown_fusions st = missing (reference_list params) done)
    (fail_lookups : lookups st = done)
    (fail_progress :
       progress st
       = (0, List.length (parsed_fusions params), 50)
         :: progress_steps (List.length (parsed_fusions params)) 0 (List.length done))
    (fail_slept : slept st = List.length done)
    (fail_stdout : stdout st = [])
    (fail_db_calls :
       db_calls st
       = [Connect "fusiongdb"; Select reference_query None]
         ++ flat_map fusion_page_calls (found (reference_list params) done))
    (fail_titles :
       map page_title (report st) = found (reference_list params) done)
    (fail_templates : Forall (fun p => partial_template p = "fusion") (report st)).

End OutcomeNotions.

(** A call that is a query. *)
Definition is_select (c : DbCall) : Prop :=
  match c with
  | Select _ _ => True
  | Connect _ => False
  end.

(** The section identifiers of a fusion page, in order. *)
Definition fusion_page_section_ids : list string :=
  ["details"; "variations"; "transcripts"; "ppi"; "targeting_drugs";
   "related_diseases"].

(** A parser like [one_call_parser] that refuses an empty input. *)
Definition strict_parser : ToolParserOps (list string * Fusions) :=
  {| tp_new := ([], []);
     tp_parse := fun tool input t =>
       match input with
       | None => inr t
       | Some fusion =>
           if String.eqb fusion EmptyString then inl (ParserError tool)
           else inr (fst t ++ [tool], aggregate tool fusion PNone (snd t))
       end;
     get_fusions := fun t => snd t;
     get_fusion := fun t fusion =>
       match find (fun f => String.eqb (fst f) fusion) (snd t) with
       | Some f => PDict (snd f)
       | None => PNone
       end;
     get_tools := fun t => fst t;
     get_tools_count := fun t => PInt (Z.of_nat (List.length (fst t))) |}.

(** The scenario with an empty input for the third tool. *)
Definition malformed_params : Params :=
  {| ericscript := Some "ABC--XYZ";
     fusioncatcher := Some EmptyString;
     starfusion := Some "ABC--XYZ";
     pizzly := Some "DEF--UVW";
     squid := None;
     sample := "S1";
     output := "out";
     config := None;
     tool_num := 2;
     database := None |}.

Abbreviation malformed_run :=
  (@generate_report _ _ strict_parser (table_db scenario_table) plain_charts
     malformed_params).

(** The scenario with a reference table that knows none of the
    reported fusions. *)
Definition foreign_table : ReferenceTable := [("XYZ", "ABC")].

Abbreviation foreign_run :=
  (@generate_report _ _ one_call_parser (table_db foreign_table) plain_charts
     scenario_params).

(** The page of the known fusion of the scenario. *)
Abbreviation scenario_page_run :=
  (@generate_fusion_page _ _ one_call_parser (table_db scenario_table) plain_charts
     scenario_params scenario_parser "ABC--XYZ"
     (@initial_state _ (table_db scenario_table) scenario_params)).

Definition scenario_page : Page :=
  match snd scenario_page_run with
  | inr page => page
  | inl _ => new_page EmptyString [] EmptyString
  end.

(** The reference lookup of the scenario over the foreign table. *)
Abbreviation foreign_lookup :=
  (@get_db_fusions _ (table_db foreign_table)
     (@initial_state _ (table_db foreign_table) scenario_params)).

(** A database like [table_db] whose reference query also returns a
    row without a pair and returns the rows of the table twice. *)
Definition messy_db (table : ReferenceTable) : DbOps unit :=
  {| db_new := fun _ => tt;
     db_connect := fun _ c => (c, inr tt);
     db_select := fun query query_params c =>
       if String.eqb query reference_query
       then (c, inr (PDict [("fusion_pair", PNone)]
                       :: reference_rows table ++ reference_rows table))
       else @db_select _ (table_db table) query query_params c |}.

Abbreviation messy_run :=
  (@generate_report _ _ one_call_parser (messy_db scenario_table) plain_charts
     scenario_params).

(** Charts like [plain_charts] with a progress bar that raises when
    it is called with index 1. *)
Definition raising_bar_charts : CoreOps :=
  {| tool_detection_chart := fun counts tools => PList [counts; PList (map PStr tools)];
     known_vs_unknown_chart := fun k u => PList [PInt (Z.of_nat k); PInt (Z.of_nat u)];
     distribution_chart := fun fusions tools =>
       PList (map (fun f => PInt (Z.of_nat (detection_count (snd f)))) fusions);
     create_ppi_graph := fun rows => PList rows;
     bar_outcome := fun i _ _ =>
       if Nat.eqb i 1 then inl (TypeError "bar") else inr tt |}.

(** The scenario with the raising bar, and the same run without the
    bar. *)
Abbreviation raising_bar_run :=
  (@generate_report _ _ one_call_parser (table_db scenario_table) raising_bar_charts
     scenario_params).

Abbreviation raising_bar_quiet_run :=
  (@generate_report_with _ _ one_call_parser (table_db scenario_table)
     raising_bar_charts no_progress_bar scenario_params).

(** The query behind each section of a fusion page that shows rows of
    the database, by section identifier. *)
Definition section_queries : list (string * string) :=
  [("variations", variations_query);
   ("transcripts", transcripts_query);
   ("ppi", ppi_query);
   ("targeting_drugs", drugs_query);
   ("related_diseases", diseases_query)].

(** * Properties *)

(** ** [str.split] and [str.count] *)

Example split_one : split "--" "ABC--XYZ" = ["ABC"; "XYZ"].
Proof. reflexivity. Qed.

Example split_none : split "--" "ABCXYZ" = ["ABCXYZ"].
Proof. reflexivity. Qed.

Example split_two : split "--" "A--B--C" = ["A"; "B"; "C"].
Proof. reflexivity. Qed.

Example split_three_dashes : split "--" "A---B" = ["A"; "-B"].
Proof. reflexivity. Qed.

Example split_empty : split "--" EmptyString = [EmptyString].
Proof. reflexivity. Qed.

Example count_three_dashes : count "--" "A---B" = 1.
Proof. reflexivity. Qed.

Lemma split_go_not_nil (sep : string) (s : string) :
  forall skip, split_go sep skip s <> [].
Proof.
  induction s as [|c s IH]; intros skip; cbn [split_go].
  - discriminate.
  - destruct skip as [|k]; [|apply IH].
    destruct (String.prefix sep (String c s)); [discriminate|].
    destruct (split_go sep 0 s); simpl; discriminate.
Qed.

Lemma length_cons_head (c : ascii) (parts : list string) :
  parts <> [] -> List.length (cons_head c parts) = List.length parts.
Proof.
  destruct parts; [congruence|reflexivity].
Qed.

(** A split has one part more than there are separators. *)
Lemma length_split_go (sep : string) (s : string) :
  forall skip, List.length (split_go sep skip s) = S (count_go sep skip s).
Proof.
  induction s as [|c s IH]; intros skip; cbn [split_go count_go].
  - reflexivity.
  - destruct skip as [|k]; [|apply IH].
    destruct (String.prefix sep (String c s)); cbn [List.length].
    + now rewrite IH.
    + rewrite length_cons_head by apply split_go_not_nil. apply IH.
Qed.

Lemma length_split (sep s : string) :
  List.length (split sep s) = S (count sep s).
Proof. apply length_split_go. Qed.

Lemma split_pair_iff (sep s : string) :
  List.length (split sep s) = 2 <-> count sep s = 1.
Proof. rewrite length_split. lia. Qed.

Lemma prefix_iff (p : string) :
  forall s, String.prefix p s = true <-> exists r, s = (p ++ r)%string.
Proof.
  induction p as [|a p IH]; intros s.
  - destruct s; simpl; split; eauto.
  - destruct s as [|b s]; simpl.
    + split; [discriminate|]. intros [r Hr]. discriminate.
    + destruct (ascii_dec a b) as [->|Hab].
      * rewrite IH. split; intros [r Hr]; exists r; congruence.
      * split; [discriminate|]. intros [r Hr]. congruence.
Qed.

Lemma split_go_skip (sep p rest : string) :
  split_go sep (String.length p) (p ++ rest)%string = split_go sep 0 rest.
Proof.
  induction p as [|a p IH]; simpl.
  - now destruct rest.
  - exact IH.
Qed.

Lemma count_go_skip (sep p rest : string) :
  count_go sep (String.length p) (p ++ rest)%string = count_go sep 0 rest.
Proof.
  induction p as [|a p IH]; simpl.
  - now destruct rest.
  - exact IH.
Qed.

(** The two equations of [split]: at a separator a part ends, at any
    other character the current part goes on. *)
Lemma split_at_sep (a : ascii) (sep' rest : string) :
  split (String a sep') (String a sep' ++ rest)%string
  = EmptyString :: split (String a sep') rest.
Proof.
  unfold split. cbn [split_go append].
  assert (Hp : String.prefix (String a sep') (String a (sep' ++ rest)%string) = true)
    by (apply prefix_iff; now exists rest).
  rewrite Hp. f_equal.
  cbn [String.length]. rewrite Nat.sub_1_r. cbn [Nat.pred].
  apply split_go_skip.
Qed.

Lemma split_at_char (sep : string) (c : ascii) (s : string) :
  String.prefix sep (String c s) = false ->
  split sep (String c s) = cons_head c (split sep s).
Proof.
  intros Hp. unfold split. cbn [split_go]. now rewrite Hp.
Qed.

Lemma count_at_sep (a : ascii) (sep' rest : string) :
  count (String a sep') (String a sep' ++ rest)%string = S (count (String a sep') rest).
Proof.
  unfold count. cbn [count_go append].
  assert (Hp : String.prefix (String a sep') (String a (sep' ++ rest)%string) = true)
    by (apply prefix_iff; now exists rest).
  rewrite Hp. f_equal.
  cbn [String.length]. rewrite Nat.sub_1_r. cbn [Nat.pred].
  apply count_go_skip.
Qed.

Lemma count_at_char (sep : string) (c : ascii) (s : string) :
  String.prefix sep (String c s) = false ->
  count sep (String c s) = count sep s.
Proof.
  intros Hp. unfold count. cbn [count_go]. now rewrite Hp.
Qed.

Lemma append_assoc (a b c : string) : ((a ++ b) ++ c = a ++ (b ++ c))%string.
Proof. induction a; simpl; congruence. Qed.

(** [s.count(sep) == 0] exactly when [sep] does not occur in [s]. *)
Lemma count_zero_iff (a : ascii) (sep' : string) (s : string) :
  count (String a sep') s = 0 <-> forall l r, s <> (l ++ String a sep' ++ r)%string.
Proof.
  induction s as [|c s IH].
  - split; [|reflexivity]. intros _ [|b l] r; simpl; discriminate.
  - destruct (String.prefix (String a sep') (String c s)) eqn:Hp.
    + apply prefix_iff in Hp. destruct Hp as [r Hr]. rewrite Hr.
      rewrite count_at_sep. split; [discriminate|].
      intros Hno. exfalso. apply (Hno EmptyString r). reflexivity.
    + rewrite count_at_char by exact Hp. rewrite IH. split.
      * intros Hno [|b l] r Heq.
        -- simpl in Heq.
           assert (String.prefix (String a sep') (String c s) = true)
             by (apply prefix_iff; exists r; exact Heq).
           congruence.
        -- simpl in Heq. injection Heq as _ Heq. exact (Hno l r Heq).
      * intros Hno l r Heq. apply (Hno (String c l) r). simpl. now rewrite Heq.
Qed.

Lemma length_append (a b : string) :
  String.length (a ++ b)%string = String.length a + String.length b.
Proof. induction a; simpl; congruence. Qed.

Lemma join_cons (sep p : string) (ps : list string) :
  ps <> [] -> join sep (p :: ps) = (p ++ sep ++ join sep ps)%string.
Proof. destruct ps; [congruence|reflexivity]. Qed.

Lemma join_cons_head (sep : string) (c : ascii) (parts : list string) :
  parts <> [] -> join sep (cons_head c parts) = String c (join sep parts).
Proof.
  destruct parts as [|p [|q ps]]; [congruence| |]; reflexivity.
Qed.

(** [sep.join(s.split(sep)) == s]: splitting loses no character. *)
Lemma join_split (a : ascii) (sep' : string) (s : string) :
  join (String a sep') (split (String a sep') s) = s.
Proof.
  remember (String.length s) as n eqn:Hn.
  revert s Hn. induction n as [n IH] using lt_wf_ind. intros s Hn.
  destruct s as [|c s]; [reflexivity|].
  destruct (String.prefix (String a sep') (String c s)) eqn:Hp.
  - apply prefix_iff in Hp. destruct Hp as [r Hr]. rewrite Hr.
    rewrite split_at_sep.
    rewrite join_cons by apply split_go_not_nil.
    rewrite (IH (String.length r)); [reflexivity| |reflexivity].
    subst n. rewrite Hr. rewrite length_append. simpl. lia.
  - rewrite split_at_char by exact Hp.
    rewrite join_cons_head by apply split_go_not_nil.
    rewrite (IH (String.length s)); [reflexivity| |reflexivity].
    subst n. simpl. lia.
Qed.

(** ** Reasoning about runs *)

Arguments variations_query : simpl never.
Arguments transcripts_query : simpl never.
Arguments ppi_query : simpl never.
Arguments drugs_query : simpl never.
Arguments diseases_query : simpl never.
Arguments reference_query : simpl never.
Arguments variations_content : simpl never.
Arguments transcripts_content : simpl never.
Arguments ppi_content : simpl never.
Arguments drugs_content : simpl never.
Arguments fusion_list_content : simpl never.
Arguments split : simpl never.

Lemma bind_inr {Conn A B : Type} (m : M Conn A) (k : A -> M Conn B)
    (st st' : State Conn) (b : B) :
  bind m k st = (st', inr b) ->
  exists st1 a, m st = (st1, inr a) /\ k a st1 = (st', inr b).
Proof.
  unfold bind. destruct (m st) as [st1 [e|a]]; intros Hk.
  - discriminate.
  - now exists st1, a.
Qed.

Lemma bind_inl {Conn A B : Type} (m : M Conn A) (k : A -> M Conn B)
    (st st' : State Conn) (e : Exception) :
  m st = (st', inl e) -> bind m k st = (st', inl e).
Proof. unfold bind. now intros ->. Qed.

Lemma bind_step {Conn A B : Type} (m : M Conn A) (k : A -> M Conn B)
    (st st1 : State Conn) (a : A) :
  m st = (st1, inr a) -> bind m k st = k a st1.
Proof. unfold bind. now intros ->. Qed.

(** The membership test agrees with membership in the list. *)
Lemma py_in_iff (a : string) (l : list PyVal) :
  py_in a l = true <-> In (PStr a) l.
Proof.
  unfold py_in. rewrite existsb_exists. split.
  - intros [v [Hin Heq]]. destruct v; try discriminate.
    simpl in Heq. apply String.eqb_eq in Heq. now subst.
  - intros Hin. exists (PStr a). split; [exact Hin|]. simpl. apply String.eqb_refl.
Qed.

Section Runs.
Context {TP Conn : Type} {parser_ops : ToolParserOps TP} {db_ops : DbOps Conn}
  {core_ops : CoreOps}.

Lemma only_db_refl (st : State Conn) : only_db st st.
Proof. repeat split. Qed.

Lemma connect_only_db (name : string) (st st' : State Conn) (r : result unit) :
  connect name st = (st', r) ->
  only_db st st' /\ db_calls st' = db_calls st ++ [Connect name].
Proof.
  unfold connect. destruct (db_connect name (db st)) as [c r'].
  intros [= <- <-]. simpl. repeat split.
Qed.

Lemma select_only_db (q : string) (p : option (list string)) (st st' : State Conn)
    (r : result (list PyVal)) :
  select q p st = (st', r) ->
  only_db st st' /\ db_calls st' = db_calls st ++ [Select q p].
Proof.
  unfold select. destruct (db_select q p (db st)) as [c r'].
  intros [= <- <-]. simpl. repeat split.
Qed.

Lemma only_db_trans (st1 st2 st3 : State Conn) :
  only_db st1 st2 -> only_db st2 st3 -> only_db st1 st3.
Proof.
  unfold only_db. intros (?&?&?&?&?&?&?) (?&?&?&?&?&?&?).
  repeat split; congruence.
Qed.

(** A fusion page only queries the database; when it is built, it is
    the page of its fusion and all five queries were made with the
    split identity as parameters. *)
Lemma generate_fusion_page_ok (params : Params) (parser : TP) (fusion : string)
    (st st' : State Conn) (page : Page) :
  generate_fusion_page params parser fusion st = (st', inr page) ->
  only_db st st' /\
  db_calls st' = db_calls st ++ fusion_page_calls fusion /\
  page_title page = fusion /\ partial_template page = "fusion".
Proof.
  unfold generate_fusion_page. intros Hrun.
  apply bind_inr in Hrun. destruct Hrun as (s1 & r1 & H1 & Hrun).
  apply bind_inr in Hrun. destruct Hrun as (s2 & r2 & H2 & Hrun).
  apply bind_inr in Hrun. destruct Hrun as (s3 & r3 & H3 & Hrun).
  apply bind_inr in Hrun. destruct Hrun as (s4 & r4 & H4 & Hrun).
  apply bind_inr in Hrun. destruct Hrun as (s5 & r5 & H5 & Hrun).
  unfold ret in Hrun. injection Hrun as <- <-.
  apply select_only_db in H1, H2, H3, H4, H5.
  destruct H1 as [F1 C1], H2 as [F2 C2], H3 as [F3 C3], H4 as [F4 C4], H5 as [F5 C5].
  split; [|split; [|split; reflexivity]].
  - eauto using only_db_trans.
  - rewrite C5, C4, C3, C2, C1. unfold fusion_page_calls.
    repeat rewrite <- app_assoc. reflexivity.
Qed.

(** Whatever the outcome, a fusion page only queries the database, and
    every query carries the split identity. *)
Lemma generate_fusion_page_calls (params : Params) (parser : TP) (fusion : string)
    (st st' : State Conn) (r : result Page) :
  generate_fusion_page params parser fusion st = (st', r) ->
  only_db st st' /\
  exists calls, db_calls st' = db_calls st ++ calls /\
    Forall (fun c => exists q, c = Select q (Some (split "--" fusion))) calls.
Proof.
  unfold generate_fusion_page, bind. intros Hrun.
  repeat match type of Hrun with
  | context [select ?q ?p ?s] =>
      let F := fresh "F" in let C := fresh "C" in
      let s' := fresh "s" in let r' := fresh "r" in
      destruct (select q p s) as [s' r'] eqn:E;
      apply select_only_db in E; destruct E as [F C];
      destruct r' as [?|?]
  end;
  injection Hrun as <- <-;
  (split; [eauto 10 using only_db_trans|]);
  eexists;
  (split; [repeat match goal with C : db_calls _ = _ |- _ => rewrite C; clear C end;
           repeat rewrite <- app_assoc; reflexivity|]);
  repeat constructor; eexists; reflexivity.
Qed.
(** What the loop has done to the state once it has gone through
    [fusions], starting at index [i]. *)
Definition classified (db_fusions : list PyVal) (total i : nat) (fusions : list string)
    (st st' : State Conn) : Prop :=
  known_fusions st' = known_fusions st ++ found db_fusions fusions /\
  unknown_fusions st' = unknown_fusions st ++ missing db_fusions fusions /\
  lookups st' = lookups st ++ fusions /\
  progress st' = progress st ++ progress_steps total i (List.length fusions) /\
  slept st' = slept st + List.length fusions /\
  stdout st' = stdout st /\
  db_calls st' = db_calls st ++ flat_map fusion_page_calls (found db_fusions fusions) /\
  exists pages,
    report st' = report st ++ pages /\
    map page_title pages = found db_fusions fusions /\
    Forall (fun p => partial_template p = "fusion") pages.

Lemma classified_nil (db_fusions : list PyVal) (total i : nat) (st : State Conn) :
  classified db_fusions total i [] st st.
Proof.
  unfold classified, progress_steps. simpl.
  repeat rewrite app_nil_r. rewrite Nat.add_0_r.
  repeat split. exists []. rewrite app_nil_r. repeat split. constructor.
Qed.

Lemma classified_cons (db_fusions : list PyVal) (total i : nat) (fusion : string)
    (rest : list string) (st st1 st2 : State Conn) :
  classified db_fusions total i [fusion] st st1 ->
  classified db_fusions total (S i) rest st1 st2 ->
  classified db_fusions total i (fusion :: rest) st st2.
Proof.
  unfold classified.
  intros (K1 & U1 & L1 & P1 & S1 & O1 & C1 & pages1 & R1 & T1 & F1)
         (K2 & U2 & L2 & P2 & S2 & O2 & C2 & pages2 & R2 & T2 & F2).
  assert (Hf : found db_fusions (fusion :: rest)
               = found db_fusions [fusion] ++ found db_fusions rest)
    by (unfold found; simpl; now destruct (py_in fusion db_fusions)).
  assert (Hm : missing db_fusions (fusion :: rest)
               = missing db_fusions [fusion] ++ missing db_fusions rest)
    by (unfold missing; simpl; now destruct (py_in fusion db_fusions)).
  rewrite Hf, Hm, flat_map_app.
  rewrite K2, K1, U2, U1, L2, L1, P2, P1, S2, S1, O2, O1, C2, C1.
  repeat rewrite <- app_assoc. simpl.
  repeat split; try lia.
  exists (pages1 ++ pages2). rewrite R2, R1, map_app, T1, T2, <- app_assoc.
  repeat split. apply Forall_app. now split.
Qed.

Lemma classify_one_ok (params : Params) (parser : TP) (db_fusions : list PyVal)
    (total i : nat) (fusion : string) (st st' : State Conn) :
  classify_one print_progress_bar params parser db_fusions total i fusion st
  = (st', inr tt) ->
  classified db_fusions total i [fusion] st st'.
Proof.
  unfold classify_one, classified, found, missing, progress_steps.
  unfold bind at 1. unfold not_in at 1. cbn [negb filter List.length seq map flat_map].
  destruct (py_in fusion db_fusions) eqn:Hin; cbn [negb].
  - unfold bind at 1. unfold append_known at 1.
    unfold bind at 1.
    destruct (generate_fusion_page _ _ _ _) as [s1 [e|page]] eqn:Hpage; [discriminate|].
    apply generate_fusion_page_ok in Hpage.
    destruct Hpage as ((R & P & S & O & L & K & U) & C & T & F).
    cbn in R, P, S, O, L, K, U, C.
    unfold bind, add_page, sleep, print_progress_bar. intros [= <- _]. cbn.
    rewrite K, U, L, P, S, O, C, R. repeat rewrite app_nil_r.
    repeat split; try lia.
    exists [page]. cbn. rewrite T. repeat split. constructor; [exact F|constructor].
  - unfold bind, append_unknown, sleep, print_progress_bar. intros [= <- _]. cbn.
    repeat rewrite app_nil_r. repeat split; try lia.
    exists []. rewrite app_nil_r. repeat split. constructor.
Qed.

Lemma classify_from_ok (params : Params) (parser : TP) (db_fusions : list PyVal)
    (total : nat) (fusions : list string) :
  forall (i : nat) (st st' : State Conn),
    classify_from print_progress_bar params parser db_fusions total i fusions st
    = (st', inr tt) ->
    classified db_fusions total i fusions st st'.
Proof.
  induction fusions as [|fusion rest IH]; intros i st st' Hrun.
  - cbn in Hrun. injection Hrun as <-. apply classified_nil.
  - cbn [classify_from] in Hrun. apply bind_inr in Hrun.
    destruct Hrun as (s1 & [] & Hone & Hrest).
    eapply classified_cons.
    + apply classify_one_ok with (1 := Hone).
    + apply IH with (1 := Hrest).
Qed.
(** The reference lookup only talks to the database, whatever its
    outcome. *)
Lemma get_db_fusions_only_db (st st1 : State Conn) (r : result (list PyVal)) :
  get_db_fusions st = (st1, r) -> only_db st st1.
Proof.
  unfold get_db_fusions, bind, lift. intros Hrun.
  destruct (connect "fusiongdb" st) as [s1 r1] eqn:E1.
  apply connect_only_db in E1. destruct E1 as [F1 _].
  destruct r1 as [e|[]]; [now injection Hrun as <- <-|].
  destruct (select reference_query None s1) as [s2 r2] eqn:E2.
  apply select_only_db in E2. destruct E2 as [F2 _].
  destruct r2 as [e|rows]; injection Hrun as <- <-; eauto using only_db_trans.
Qed.

Lemma get_db_fusions_calls (st st1 : State Conn) (db_fusions : list PyVal) :
  get_db_fusions st = (st1, inr db_fusions) ->
  db_calls st1 = db_calls st ++ [Connect "fusiongdb"; Select reference_query None].
Proof.
  unfold get_db_fusions. intros Hrun.
  apply bind_inr in Hrun. destruct Hrun as (s1 & [] & E1 & Hrun).
  apply bind_inr in Hrun. destruct Hrun as (s2 & rows & E2 & Hrun).
  unfold lift in Hrun. injection Hrun as <- _.
  apply connect_only_db in E1. apply select_only_db in E2.
  destruct E1 as [_ C1], E2 as [_ C2]. rewrite C2, C1, <- app_assoc. reflexivity.
Qed.

Lemma generate_report_ok (params : Params) (st : State Conn) :
  generate_report params = (st, inr tt) -> completed params st.
Proof.
  unfold generate_report, generate_report_with, generate_report_body.
  intros Hrun.
  apply bind_inr in Hrun. destruct Hrun as (s0 & parser & Hparse & Hrun).
  unfold lift in Hparse. injection Hparse as <- Hparse.
  apply bind_inr in Hrun. destruct Hrun as (s1 & db_fusions & Hdb & Hrun).
  assert (Hfus : parsed_fusions params = fusion_ids (get_fusions parser))
    by (unfold parsed_fusions; now rewrite Hparse).
  assert (Href : reference_list params = db_fusions)
    by (unfold reference_list; now rewrite Hdb).
  rewrite <- Hfus in Hrun.
  pose proof Hdb as Hcalls. apply get_db_fusions_calls in Hcalls.
  apply get_db_fusions_only_db in Hdb.
  destruct Hdb as (R1 & P1 & S1 & O1 & L1 & K1 & U1).
  cbn in R1, P1, S1, O1, L1, K1, U1, Hcalls.
  apply bind_inr in Hrun. destruct Hrun as (s2 & [] & Hbar & Hrun).
  unfold print_progress_bar in Hbar. injection Hbar as <- _.
  apply bind_inr in Hrun. destruct Hrun as (s3 & [] & Hloop & Hrun).
  apply classify_from_ok in Hloop.
  destruct Hloop as (K & U & L & P & S & O & C & pages & R & T & F).
  cbn in K, U, L, P, S, O, C, R.
  rewrite K1 in K. rewrite U1 in U. rewrite L1 in L. rewrite P1 in P.
  rewrite S1 in S. rewrite O1 in O. rewrite Hcalls in C. rewrite R1 in R.
  cbn in K, U, L, P, S, O, C, R.
  unfold bind, gets, add_page, print in Hrun. injection Hrun as <-.
  rewrite <- Href in *.
  apply Completed with (parser := parser) (pages := pages); cbn;
    try rewrite K; try rewrite U; try assumption; try reflexivity.
  - now rewrite O.
  - now rewrite R.
Qed.
(** *** Runs complete when no collaborator raises *)

Lemma connect_total (name : string) (st : State Conn) :
  db_never_raises -> exists st', connect name st = (st', inr tt).
Proof.
  intros [Hc _]. unfold connect. specialize (Hc name (db st)).
  destruct (db_connect name (db st)) as [c r]. simpl in Hc. subst r. eauto.
Qed.

Lemma select_total (q : string) (p : option (list string)) (st : State Conn) :
  db_never_raises -> exists st' rows, select q p st = (st', inr rows).
Proof.
  intros [_ Hs]. unfold select. destruct (Hs q p (db st)) as [rows Hrows].
  destruct (db_select q p (db st)) as [c r]. simpl in Hrows. subst r. eauto.
Qed.

Lemma generate_fusion_page_total (params : Params) (parser : TP) (fusion : string)
    (st : State Conn) :
  db_never_raises ->
  exists st' page, generate_fusion_page params parser fusion st = (st', inr page).
Proof.
  intros Hdb. unfold generate_fusion_page.
  destruct (select_total variations_query (Some (split "--" fusion)) st Hdb)
    as (s1 & r1 & E1).
  erewrite bind_step by exact E1.
  destruct (select_total transcripts_query (Some (split "--" fusion)) s1 Hdb)
    as (s2 & r2 & E2).
  erewrite bind_step by exact E2.
  destruct (select_total ppi_query (Some (split "--" fusion)) s2 Hdb)
    as (s3 & r3 & E3).
  erewrite bind_step by exact E3.
  destruct (select_total drugs_query (Some (split "--" fusion)) s3 Hdb)
    as (s4 & r4 & E4).
  erewrite bind_step by exact E4.
  destruct (select_total diseases_query (Some (split "--" fusion)) s4 Hdb)
    as (s5 & r5 & E5).
  erewrite bind_step by exact E5.
  unfold ret. eauto.
Qed.

Lemma classify_one_total (params : Params) (parser : TP) (db_fusions : list PyVal)
    (total i : nat) (fusion : string) (st : State Conn) :
  db_never_raises ->
  bar_never_raises ->
  exists st',
    classify_one print_progress_bar params parser db_fusions total i fusion st
    = (st', inr tt).
Proof.
  intros Hdb Hbar. unfold classify_one.
  unfold bind at 1. unfold not_in at 1.
  destruct (negb (py_in fusion db_fusions)).
  - unfold bind, append_unknown, sleep, print_progress_bar. rewrite Hbar. eauto.
  - unfold bind at 1. unfold append_known at 1.
    match goal with
    | |- context [generate_fusion_page ?a ?b ?c] =>
        match goal with
        | |- exists st', bind _ _ ?s = _ =>
            destruct (generate_fusion_page_total a b c s Hdb) as (s1 & page & E)
        end
    end.
    erewrite bind_step by exact E.
    unfold bind, add_page, sleep, print_progress_bar. rewrite Hbar. eauto.
Qed.

Lemma classify_from_total (params : Params) (parser : TP) (db_fusions : list PyVal)
    (total : nat) (fusions : list string) :
  db_never_raises ->
  bar_never_raises ->
  forall (i : nat) (st : State Conn),
  exists st',
    classify_from print_progress_bar params parser db_fusions total i fusions st
    = (st', inr tt).
Proof.
  intros Hdb Hbar. induction fusions as [|fusion rest IH]; intros i st.
  - cbn. unfold ret. eauto.
  - cbn [classify_from].
    destruct (classify_one_total params parser db_fusions total i fusion st Hdb Hbar)
      as (s1 & E1).
    erewrite bind_step by exact E1. apply IH.
Qed.

(** If the parser, the database and the progress bar do not raise and
    every row of the reference query has its [fusion_pair], the run
    completes. *)
Lemma generate_report_completes (params : Params) (parser : TP) :
  parse params = inr parser ->
  db_never_raises ->
  bar_never_raises ->
  (forall c rows, snd (db_select reference_query None c) = inr rows ->
     exists db_fusions, fusion_pairs rows = inr db_fusions) ->
  exists st, generate_report params = (st, inr tt).
Proof.
  intros Hparse Hdb Hbar Hrows.
  unfold generate_report, generate_report_with, generate_report_body.
  unfold bind at 1. unfold lift at 1. rewrite Hparse.
  assert (Href : exists s1 db_fusions,
             get_db_fusions (initial_state params) = (s1, inr db_fusions)).
  { unfold get_db_fusions.
    destruct (connect_total "fusiongdb" (initial_state params) Hdb) as (s0 & E0).
    erewrite bind_step by exact E0.
    destruct (select_total reference_query None s0 Hdb) as (s1 & rows & E1).
    erewrite bind_step by exact E1.
    unfold lift. exists s1.
    destruct (Hrows (db s0) rows) as [db_fusions Hpairs].
    - unfold select in E1. destruct (db_select reference_query None (db s0)) as [c r].
      now injection E1 as _ ->.
    - exists db_fusions. now rewrite Hpairs. }
  destruct Href as (s1 & db_fusions & Href).
  erewrite bind_step by exact Href.
  unfold bind at 1. unfold print_progress_bar at 1. rewrite Hbar.
  match goal with
  | |- exists st, bind (classify_from _ ?a ?b ?c ?d ?e ?f) _ ?s = _ =>
      destruct (classify_from_total a b c d f Hdb Hbar e s) as (s2 & E2)
  end.
  erewrite bind_step by exact E2.
  unfold bind, gets, add_page, print. eauto.
Qed.
(** *** Runs with and without progress output *)

Lemma quiet_bind {A B : Type} (m m' : M Conn A) (k k' : A -> M Conn B) :
  same_but_progress Conn m m' ->
  (forall a, same_but_progress Conn (k a) (k' a)) ->
  same_but_progress Conn (bind m k) (bind m' k').
Proof.
  intros Hm Hk st. destruct (Hm st) as (calls1 & P1 & Q1). unfold bind.
  destruct (m st) as [s1 [e|a]]; cbn [fst snd] in *.
  - exists calls1. split; [exact P1|]. intros Hok. now rewrite (Q1 Hok).
  - destruct (Hk a s1) as (calls2 & P2 & Q2).
    exists (calls1 ++ calls2). split; [now rewrite P2, P1, app_assoc|].
    intros Hok. apply Forall_app in Hok. destruct Hok as [Hok1 Hok2].
    rewrite (Q1 Hok1). exact (Q2 Hok2).
Qed.

(** A computation that does not call the bar and does not read the
    record of its calls is its own quiet version. *)
Lemma quiet_same {A : Type} (m : M Conn A) :
  (forall st, progress (fst (m st)) = progress st) ->
  (forall st, m (without_progress st) = (without_progress (fst (m st)), snd (m st))) ->
  same_but_progress Conn m m.
Proof.
  intros Hp Hq st. exists []. split; [now rewrite app_nil_r|]. intros _. apply Hq.
Qed.

Lemma quiet_ret {A : Type} (a : A) : same_but_progress Conn (ret a) (ret a).
Proof. apply quiet_same; reflexivity. Qed.

Lemma quiet_lift {A : Type} (r : result A) : same_but_progress Conn (lift r) (lift r).
Proof. apply quiet_same; reflexivity. Qed.

Lemma quiet_connect (name : string) :
  same_but_progress Conn (connect name) (connect name).
Proof.
  apply quiet_same; intros st; unfold connect; cbn [db without_progress];
    now destruct (db_connect name (db st)).
Qed.

Lemma quiet_select (q : string) (p : option (list string)) :
  same_but_progress Conn (select q p) (select q p).
Proof.
  apply quiet_same; intros st; unfold select; cbn [db without_progress];
    now destruct (db_select q p (db st)).
Qed.

Lemma quiet_add_page (page : Page) :
  same_but_progress Conn (add_page page) (add_page page).
Proof. apply quiet_same; reflexivity. Qed.

Lemma quiet_sleep : same_but_progress Conn sleep sleep.
Proof. apply quiet_same; reflexivity. Qed.

Lemma quiet_print (line : string) : same_but_progress Conn (print line) (print line).
Proof. apply quiet_same; reflexivity. Qed.

Lemma quiet_not_in (fusion : string) (db_fusions : list PyVal) :
  same_but_progress Conn (not_in fusion db_fusions) (not_in fusion db_fusions).
Proof. apply quiet_same; reflexivity. Qed.

Lemma quiet_append_known (fusion : string) :
  same_but_progress Conn (append_known fusion) (append_known fusion).
Proof. apply quiet_same; reflexivity. Qed.

Lemma quiet_append_unknown (fusion : string) :
  same_but_progress Conn (append_unknown fusion) (append_unknown fusion).
Proof. apply quiet_same; reflexivity. Qed.

Lemma quiet_gets_known :
  same_but_progress Conn (gets known_fusions) (gets known_fusions).
Proof. apply quiet_same; reflexivity. Qed.

Lemma quiet_gets_unknown :
  same_but_progress Conn (gets unknown_fusions) (gets unknown_fusions).
Proof. apply quiet_same; reflexivity. Qed.

(** The bar itself: the quiet run skips the call, which is the same
    when the call returns. *)
Lemma quiet_progress_bar (i total width : nat) :
  same_but_progress Conn (print_progress_bar i total width) (no_progress_bar i total width).
Proof.
  intros st. exists [(i, total, width)]. split; [reflexivity|].
  intros Hok. inversion Hok as [|call calls Hcall _]. subst.
  unfold bar_returned in Hcall. cbn [fst snd] in Hcall.
  unfold print_progress_bar, no_progress_bar, ret. cbn [fst snd].
  now rewrite Hcall.
Qed.

Create HintDb quiet.
#[local] Hint Resolve quiet_bind quiet_ret quiet_lift quiet_connect quiet_select
  quiet_add_page quiet_sleep quiet_print quiet_not_in quiet_append_known
  quiet_append_unknown quiet_gets_known quiet_gets_unknown quiet_progress_bar : quiet.

Lemma quiet_generate_fusion_page (params : Params) (parser : TP) (fusion : string) :
  same_but_progress Conn (generate_fusion_page params parser fusion)
                    (generate_fusion_page params parser fusion).
Proof. unfold generate_fusion_page. cbv zeta. auto 20 with quiet. Qed.

Lemma quiet_get_db_fusions : same_but_progress Conn get_db_fusions get_db_fusions.
Proof. unfold get_db_fusions. auto 10 with quiet. Qed.

Lemma quiet_classify_one (params : Params) (parser : TP) (db_fusions : list PyVal)
    (total i : nat) (fusion : string) :
  same_but_progress Conn
    (classify_one print_progress_bar params parser db_fusions total i fusion)
    (classify_one no_progress_bar params parser db_fusions total i fusion).
Proof.
  unfold classify_one. apply quiet_bind; [auto with quiet|].
  intros [|]; auto 20 using quiet_generate_fusion_page with quiet.
Qed.

Lemma quiet_classify_from (params : Params) (parser : TP) (db_fusions : list PyVal)
    (total : nat) (fusions : list string) :
  forall i,
    same_but_progress Conn
      (classify_from print_progress_bar params parser db_fusions total i fusions)
      (classify_from no_progress_bar params parser db_fusions total i fusions).
Proof.
  induction fusions as [|fusion rest IH]; intros i; cbn [classify_from].
  - apply quiet_ret.
  - apply quiet_bind; [apply quiet_classify_one|]. intros _. apply IH.
Qed.

Lemma quiet_generate_report_body (params : Params) :
  same_but_progress Conn (generate_report_body print_progress_bar params)
                    (generate_report_body no_progress_bar params).
Proof.
  unfold generate_report_body. cbv zeta.
  auto 20 using quiet_get_db_fusions, quiet_classify_from with quiet.
Qed.

End Runs.

(** ** The scenario of the specification *)

Example scenario_parse_args : parse_args scenario_argv = inr scenario_params.
Proof. reflexivity. Qed.

Example scenario_parse :
  @parse _ one_call_parser scenario_params = inr scenario_parser.
Proof. reflexivity. Qed.

Example scenario_completes : snd scenario_run = inr tt.
Proof. vm_compute. reflexivity. Qed.

Example scenario_known : known_fusions (fst scenario_run) = ["ABC--XYZ"].
Proof. vm_compute. reflexivity. Qed.

Example scenario_unknown : unknown_fusions (fst scenario_run) = ["DEF--UVW"].
Proof. vm_compute. reflexivity. Qed.

Example scenario_pages :
  map page_title (report (fst scenario_run)) = ["ABC--XYZ"; "index"].
Proof. vm_compute. reflexivity. Qed.

Example scenario_progress :
  progress (fst scenario_run) = [(0, 2, 50); (1, 2, 50); (2, 2, 50)].
Proof. vm_compute. reflexivity. Qed.

(** ** The classification pass *)

Lemma found_missing_permutation (db_fusions : list PyVal) (fusions : list string) :
  Permutation (found db_fusions fusions ++ missing db_fusions fusions) fusions.
Proof.
  unfold found, missing. induction fusions as [|f rest IH]; simpl.
  - constructor.
  - destruct (py_in f db_fusions); simpl.
    + now constructor.
    + apply Permutation_sym. apply Permutation_cons_app. now apply Permutation_sym.
Qed.

Lemma found_missing_length (db_fusions : list PyVal) (fusions : list string) :
  List.length (missing db_fusions fusions) + List.length (found db_fusions fusions)
  = List.length fusions.
Proof.
  unfold found, missing. induction fusions as [|f rest IH]; simpl.
  - reflexivity.
  - destruct (py_in f db_fusions); simpl; lia.
Qed.

Lemma in_found (db_fusions : list PyVal) (fusions : list string) (f : string) :
  In f (found db_fusions fusions) <-> In f fusions /\ In (PStr f) db_fusions.
Proof. unfold found. rewrite filter_In, py_in_iff. reflexivity. Qed.

Lemma in_missing (db_fusions : list PyVal) (fusions : list string) (f : string) :
  In f (missing db_fusions fusions) <-> In f fusions /\ ~ In (PStr f) db_fusions.
Proof.
  unfold missing. rewrite filter_In, negb_true_iff, <- py_in_iff.
  destruct (py_in f db_fusions); intuition congruence.
Qed.

Section Classification.
Context {TP Conn : Type} {parser_ops : ToolParserOps TP} {db_ops : DbOps Conn}
  {core_ops : CoreOps}.

(** C1.  When a run completes, the classification pass has partitioned
    the list of identities the parser returned: the known and the
    unknown list together are a rearrangement of the whole list (every
    occurrence of an identity went to exactly one of them), an identity
    is in the known list exactly when it is a parsed identity that the
    reference list contains and in the unknown list exactly when it is a
    parsed identity that the reference list does not contain, and no
    identity is in both lists. *)
Theorem classification_partitions (params : Params) (st : State Conn) :
  generate_report params = (st, inr tt) ->
  Permutation (known_fusions st ++ unknown_fusions st) (parsed_fusions params) /\
  (forall f, In f (known_fusions st) <->
             In f (parsed_fusions params) /\ In (PStr f) (reference_list params)) /\
  (forall f, In f (unknown_fusions st) <->
             In f (parsed_fusions params) /\ ~ In (PStr f) (reference_list params)) /\
  (forall f, In f (parsed_fusions params) <->
             In f (known_fusions st) \/ In f (unknown_fusions st)) /\
  (forall f, ~ (In f (known_fusions st) /\ In f (unknown_fusions st))).
Proof.
  intros Hrun. apply generate_report_ok in Hrun.
  destruct Hrun as [parser pages _ K U _ _ _ _ _ _ _ _].
  rewrite K, U.
  split; [apply found_missing_permutation|].
  split; [intros f; apply in_found|].
  split; [intros f; apply in_missing|].
  split.
  - intros f. split.
    + intros Hin.
      apply (Permutation_in f (Permutation_sym (found_missing_permutation
               (reference_list params) (parsed_fusions params)))) in Hin.
      now apply in_app_or.
    + intros [Hin|Hin]; [apply in_found in Hin|apply in_missing in Hin]; tauto.
  - intros f [Hk Hu]. apply in_found in Hk. apply in_missing in Hu. tauto.
Qed.
Lemma index_page_variables (params : Params) (parser : TP)
    (known unknown : list string) :
  page_variables (generate_index params parser known unknown)
  = [("sample", PStr (sample params));
     ("fusions_sum", PInt (Z.of_nat (List.length unknown + List.length known)));
     ("known_fusion_sum", PInt (Z.of_nat (List.length known)));
     ("fusion_tools", PList (map PStr (get_tools parser)))].
Proof. reflexivity. Qed.

Lemma index_page_template (params : Params) (parser : TP)
    (known unknown : list string) :
  partial_template (generate_index params parser known unknown) = "index" /\
  page_title (generate_index params parser known unknown) = "index".
Proof. split; reflexivity. Qed.

(** C2.  When a run completes, the report holds one fusion page per
    known fusion, in order, followed by the index page and nothing
    else.  So for every parsed identity a fusion page with that title is
    in the report exactly when the identity was classified known, which
    is exactly when the reference list contains it; an unknown fusion
    has no page of its own. *)
Theorem fusion_page_iff_known (params : Params) (st : State Conn) :
  generate_report params = (st, inr tt) ->
  (forall f, In f (parsed_fusions params) ->
     ((exists page, In page (report st) /\ page_title page = f /\
                    partial_template page = "fusion")
      <-> In f (known_fusions st)) /\
     (In f (known_fusions st) <-> In (PStr f) (reference_list params))) /\
  (forall f, In f (unknown_fusions st) ->
     ~ exists page, In page (report st) /\ page_title page = f /\
                    partial_template page = "fusion") /\
  (exists pages index,
     report st = pages ++ [index] /\
     map page_title pages = known_fusions st /\
     Forall (fun p => partial_template p = "fusion") pages /\
     partial_template index = "index" /\ page_title index = "index").
Proof.
  intros Hrun. apply generate_report_ok in Hrun.
  destruct Hrun as [parser pages _ K U _ _ _ _ _ R T F].
  assert (Hpage : forall f,
            (exists page, In page (report st) /\ page_title page = f /\
                          partial_template page = "fusion")
            <-> In f (known_fusions st)).
  { intros f. rewrite R, <- T. split.
    - intros (page & Hin & Htitle & Htemplate).
      apply in_app_or in Hin. destruct Hin as [Hin|[<-|[]]].
      + rewrite <- Htitle. now apply in_map.
      + discriminate Htemplate.
    - intros Hin. apply in_map_iff in Hin. destruct Hin as (page & Htitle & Hin).
      exists page. split; [apply in_or_app; now left|].
      split; [exact Htitle|].
      rewrite Forall_forall in F. now apply F. }
  split; [|split].
  - intros f Hf. split; [apply Hpage|].
    rewrite K, in_found. tauto.
  - intros f Hu Hp. apply Hpage in Hp.
    rewrite K in Hp. rewrite U in Hu.
    apply in_found in Hp. apply in_missing in Hu. tauto.
  - exists pages, (generate_index params parser (known_fusions st) (unknown_fusions st)).
    repeat split; assumption.
Qed.

(** C5.  If the reference lookup raises (the connection, the reference
    query or the reading of its rows), the run ends with that exception
    before the loop is entered: both lists are empty, no identity has
    been tested, no page has been added to the report, the index page
    among them, and nothing has been printed. *)
Theorem lookup_failure_aborts (params : Params) (parser : TP) (st : State Conn)
    (e : Exception) :
  parse params = inr parser ->
  get_db_fusions (initial_state params) = (st, inl e) ->
  generate_report params = (st, inl e) /\
  known_fusions st = [] /\ unknown_fusions st = [] /\ lookups st = [] /\
  report st = [] /\ progress st = [] /\ stdout st = [].
Proof.
  intros Hparse Hdb. split.
  - unfold generate_report, generate_report_with, generate_report_body.
    unfold bind at 1. unfold lift at 1. rewrite Hparse.
    now apply bind_inl.
  - apply get_db_fusions_only_db in Hdb.
    destruct Hdb as (R & P & S & O & L & K & U).
    cbn in R, P, S, O, L, K, U. repeat split; assumption.
Qed.

(** C6.  When a run completes, the membership tests against the
    reference list are exactly the parsed identities, in order: one
    test for each identity of the list, no more and no fewer.  The
    database itself is asked for the reference list once, before the
    loop; every later query is a query of a fusion page. *)
Theorem one_lookup_per_fusion (params : Params) (st : State Conn) :
  generate_report params = (st, inr tt) ->
  lookups st = parsed_fusions params /\
  List.length (lookups st) = List.length (parsed_fusions params) /\
  (forall f, count_occ string_dec (lookups st) f
             = count_occ string_dec (parsed_fusions params) f) /\
  (exists page_calls,
     db_calls st = [Connect "fusiongdb"; Select reference_query None] ++ page_calls /\
     Forall (fun c => exists q p, c = Select q (Some p)) page_calls).
Proof.
  intros Hrun. apply generate_report_ok in Hrun.
  destruct Hrun as [parser pages _ _ _ L _ _ _ C _ _ _].
  rewrite L. repeat split.
  exists (flat_map fusion_page_calls (known_fusions st)). split; [exact C|].
  apply Forall_flat_map. apply Forall_forall. intros f _.
  unfold fusion_page_calls. repeat constructor; eauto.
Qed.

(** C7, amended.  Progress output does not change a run as long as no
    call of the progress bar raises.  Whatever the outcome of such a
    run, the same run without the progress bar has the same outcome and
    the same state, the record of the progress calls apart: the same
    known and unknown lists and the same pages.  When the run completes
    over a list of [n] fusions, the progress bar has been called [n + 1]
    times: with index [0] before the loop and with index [i + 1] after
    the fusion at index [i], whichever branch it took. *)
Theorem progress_is_observational (params : Params) (st : State Conn)
    (r : result unit) :
  generate_report params = (st, r) ->
  Forall bar_returned (progress st) ->
  generate_report_with no_progress_bar params = (without_progress st, r) /\
  known_fusions (fst (generate_report_with no_progress_bar params)) = known_fusions st /\
  unknown_fusions (fst (generate_report_with no_progress_bar params))
  = unknown_fusions st /\
  report (fst (generate_report_with no_progress_bar params)) = report st /\
  (r = inr tt ->
   progress st
   = (0, List.length (parsed_fusions params), 50)
     :: map (fun i => (i + 1, List.length (parsed_fusions params), 50))
            (seq 0 (List.length (parsed_fusions params))) /\
   List.length (progress st) = List.length (parsed_fusions params) + 1).
Proof.
  intros Hrun Hok.
  assert (Hquiet : generate_report_with no_progress_bar params
                   = (without_progress st, r)).
  { unfold generate_report, generate_report_with in *.
    destruct (quiet_generate_report_body params (initial_state params))
      as (calls & Hcalls & Hq).
    rewrite Hrun in Hcalls, Hq. cbn [fst snd progress initial_state app] in Hcalls.
    apply Hq. now rewrite <- Hcalls. }
  split; [exact Hquiet|]. rewrite Hquiet. cbn [fst].
  repeat split.
  - subst r. apply generate_report_ok in Hrun.
    destruct Hrun as [parser pages _ _ _ _ P _ _ _ _ _ _]. exact P.
  - subst r. apply generate_report_ok in Hrun.
    destruct Hrun as [parser pages _ _ _ _ P _ _ _ _ _ _]. rewrite P.
    unfold progress_steps. cbn [List.length].
    rewrite length_map, length_seq. lia.
Qed.

(** C9.  When a run completes, the known list is the subsequence of
    the parsed list whose identities the reference list contains, the
    unknown list is the complementary subsequence, both in the order of
    the parsed list, and the variable [fusions_sum] of the index page,
    the last page of the report, is the length of the parsed list. *)
Theorem classification_keeps_order (params : Params) (st : State Conn) :
  generate_report params = (st, inr tt) ->
  known_fusions st
  = filter (fun f => py_in f (reference_list params)) (parsed_fusions params) /\
  unknown_fusions st
  = filter (fun f => negb (py_in f (reference_list params))) (parsed_fusions params) /\
  (exists pages index,
     report st = pages ++ [index] /\
     partial_template index = "index" /\
     dict_get "fusions_sum" (page_variables index)
     = inr (PInt (Z.of_nat (List.length (parsed_fusions params)))) /\
     dict_get "known_fusion_sum" (page_variables index)
     = inr (PInt (Z.of_nat (List.length (known_fusions st))))).
Proof.
  intros Hrun. apply generate_report_ok in Hrun.
  destruct Hrun as [parser pages _ K U _ _ _ _ _ R _ _].
  split; [exact K|]. split; [exact U|].
  exists pages, (generate_index params parser (known_fusions st) (unknown_fusions st)).
  split; [exact R|]. split; [reflexivity|].
  rewrite index_page_variables. split; [|reflexivity].
  cbn. rewrite K, U, found_missing_length. reflexivity.
Qed.

End Classification.

Lemma classification_partitions_witness :
  scenario_run = (fst scenario_run, inr tt) /\
  Permutation
    (known_fusions (fst scenario_run) ++ unknown_fusions (fst scenario_run))
    (@parsed_fusions _ one_call_parser scenario_params).
Proof.
  assert (Hrun : scenario_run = (fst scenario_run, inr tt))
    by (vm_compute; reflexivity).
  split; [exact Hrun|].
  exact (proj1 (@classification_partitions _ _ one_call_parser
                  (table_db scenario_table) plain_charts scenario_params
                  (fst scenario_run) Hrun)).
Defined.

Lemma fusion_page_iff_known_witness :
  scenario_run = (fst scenario_run, inr tt) /\
  exists pages index,
    report (fst scenario_run) = pages ++ [index] /\
    map page_title pages = known_fusions (fst scenario_run) /\
    Forall (fun p => partial_template p = "fusion") pages /\
    partial_template index = "index" /\ page_title index = "index".
Proof.
  assert (Hrun : scenario_run = (fst scenario_run, inr tt))
    by (vm_compute; reflexivity).
  split; [exact Hrun|].
  exact (proj2 (proj2 (@fusion_page_iff_known _ _ one_call_parser
                         (table_db scenario_table) plain_charts scenario_params
                         (fst scenario_run) Hrun))).
Defined.

Lemma lookup_failure_aborts_witness :
  failed_run
  = (fst failed_run, inl (DbError "unable to open database file")) /\
  known_fusions (fst failed_run) = [] /\ unknown_fusions (fst failed_run) = [] /\
  lookups (fst failed_run) = [] /\ report (fst failed_run) = [] /\
  progress (fst failed_run) = [] /\ stdout (fst failed_run) = [].
Proof.
  refine (@lookup_failure_aborts _ _ one_call_parser down_db plain_charts
            scenario_params
            scenario_parser
            (fst failed_run) (DbError "unable to open database file") _ _).
  - vm_compute. reflexivity.
  - vm_compute. reflexivity.
Defined.

Lemma one_lookup_per_fusion_witness :
  scenario_run = (fst scenario_run, inr tt) /\
  lookups (fst scenario_run) = @parsed_fusions _ one_call_parser scenario_params.
Proof.
  assert (Hrun : scenario_run = (fst scenario_run, inr tt))
    by (vm_compute; reflexivity).
  split; [exact Hrun|].
  exact (proj1 (@one_lookup_per_fusion _ _ one_call_parser
                  (table_db scenario_table) plain_charts scenario_params
                  (fst scenario_run) Hrun)).
Defined.

Lemma progress_is_observational_witness :
  scenario_run = (fst scenario_run, inr tt) /\
  Forall (@bar_returned plain_charts) (progress (fst scenario_run)) /\
  @generate_report_with _ _ one_call_parser (table_db scenario_table) plain_charts
    no_progress_bar scenario_params
  = (without_progress (fst scenario_run), inr tt).
Proof.
  assert (Hrun : scenario_run = (fst scenario_run, inr tt))
    by (vm_compute; reflexivity).
  assert (Hok : Forall (@bar_returned plain_charts) (progress (fst scenario_run)))
    by (apply Forall_forall; intros call _; reflexivity).
  split; [exact Hrun|]. split; [exact Hok|].
  exact (proj1 (@progress_is_observational _ _ one_call_parser
                  (table_db scenario_table) plain_charts scenario_params
                  (fst scenario_run) (inr tt) Hrun Hok)).
Defined.

(** C7 as stated fails when a call of the progress bar raises: with a
    bar that raises at index 1 the run ends with the exception of the
    bar after the first fusion, with two calls of the bar for two
    fusions, without the second fusion in the unknown list and without
    the index page, where the run without the bar completes. *)
Lemma raising_bar_aborts_run :
  snd raising_bar_run = inl (TypeError "bar") /\
  snd raising_bar_quiet_run = inr tt /\
  progress (fst raising_bar_run) = [(0, 2, 50); (1, 2, 50)] /\
  known_fusions (fst raising_bar_run) = ["ABC--XYZ"] /\
  unknown_fusions (fst raising_bar_run) = [] /\
  unknown_fusions (fst raising_bar_quiet_run) = ["DEF--UVW"] /\
  map page_title (report (fst raising_bar_run)) = ["ABC--XYZ"] /\
  map page_title (report (fst raising_bar_quiet_run)) = ["ABC--XYZ"; "index"].
Proof. vm_compute. repeat split. Qed.

Lemma classification_keeps_order_witness :
  scenario_run = (fst scenario_run, inr tt) /\
  known_fusions (fst scenario_run)
  = filter (fun f => py_in f (@reference_list _ (table_db scenario_table)
                                scenario_params))
           (@parsed_fusions _ one_call_parser scenario_params).
Proof.
  assert (Hrun : scenario_run = (fst scenario_run, inr tt))
    by (vm_compute; reflexivity).
  split; [exact Hrun|].
  exact (proj1 (@classification_keeps_order _ _ one_call_parser
                  (table_db scenario_table) plain_charts scenario_params
                  (fst scenario_run) Hrun)).
Defined.

(** ** The tool-count filter *)

Lemma detection_count_le_max (fusions : Fusions) (f : string * ToolCalls) :
  In f fusions -> detection_count (snd f) <= max_detection_count fusions.
Proof.
  unfold max_detection_count. induction fusions as [|g rest IH]; simpl.
  - intros [].
  - intros [->|Hin]; [lia|]. specialize (IH Hin). lia.
Qed.

Lemma filter_none {A : Type} (p : A -> bool) (l : list A) :
  (forall x, In x l -> p x = false) -> filter p l = [].
Proof.
  induction l as [|a l IH]; simpl; intros Hall; [reflexivity|].
  rewrite (Hall a) by now left. apply IH. intros x Hx. apply Hall. now right.
Qed.

(** C3.  On the filter as the specification describes it: when the
    minimum tool count is above the largest detection count of the
    fusions, the filter returns all fusions, where keeping the fusions
    found by at least that many tools would have kept none; the table of
    the index page then has one row per fusion. *)
Theorem filter_disabled_above_maximum (fusions : Fusions) (minimum_count : Z) :
  (Z.of_nat (max_detection_count fusions) < minimum_count)%Z ->
  filter_by_tool_count fusions minimum_count = fusions /\
  fusion_ids (filter_by_tool_count fusions minimum_count) = fusion_ids fusions /\
  filter (fun f => (minimum_count <=? Z.of_nat (detection_count (snd f)))%Z) fusions
  = [] /\
  (forall tools known,
     exists table,
       create_fusions_table fusions tools known minimum_count
       = FusionsTable minimum_count table /\
       map row_fusion table = fusion_ids fusions).
Proof.
  intros Hmax.
  assert (Hall : filter_by_tool_count fusions minimum_count = fusions).
  { unfold filter_by_tool_count.
    destruct (Z.ltb_spec (Z.of_nat (max_detection_count fusions)) minimum_count);
      [reflexivity|lia]. }
  split; [exact Hall|]. split; [now rewrite Hall|]. split.
  - apply filter_none. intros f Hin.
    apply detection_count_le_max in Hin.
    apply Z.leb_gt. lia.
  - intros tools known. unfold create_fusions_table. rewrite Hall.
    eexists. split; [reflexivity|].
    unfold fusion_ids. rewrite map_map. reflexivity.
Qed.

Lemma filter_disabled_above_maximum_witness :
  (Z.of_nat (max_detection_count (snd scenario_parser)) < 3)%Z /\
  filter_by_tool_count (snd scenario_parser) 3 = snd scenario_parser.
Proof.
  assert (Hmax : (Z.of_nat (max_detection_count (snd scenario_parser)) < 3)%Z)
    by (vm_compute; reflexivity).
  split; [exact Hmax|].
  exact (proj1 (filter_disabled_above_maximum (snd scenario_parser) 3 Hmax)).
Defined.

(** The scenario of the specification: with a minimum count of 2 only
    the fusion that two tools found is kept. *)
Example scenario_filter :
  fusion_ids (filter_by_tool_count (snd scenario_parser) 2) = ["ABC--XYZ"].
Proof. reflexivity. Qed.

(** The text of the fusion list section puts the condition on the
    number of chosen tools.  When no record names more tools than were
    chosen, fewer chosen tools than the cutoff disable the filter of the
    specification as well. *)
Lemma filter_disabled_with_few_tools (fusions : Fusions) (tools : list string)
    (cutoff : Z) :
  (forall f, In f fusions -> detection_count (snd f) <= List.length tools) ->
  (Z.of_nat (List.length tools) < cutoff)%Z ->
  filter_by_tool_count fusions cutoff = fusions.
Proof.
  intros Hle Hfew. unfold filter_by_tool_count.
  assert (Hmax : max_detection_count fusions <= List.length tools).
  { unfold max_detection_count. induction fusions as [|g rest IH]; simpl; [lia|].
    assert (detection_count (snd g) <= List.length tools) by (apply Hle; now left).
    assert (fold_right (fun f m => Nat.max (detection_count (snd f)) m) 0 rest
            <= List.length tools) by (apply IH; intros f Hf; apply Hle; now right).
    lia. }
  destruct (Z.ltb_spec (Z.of_nat (max_detection_count fusions)) cutoff);
    [reflexivity|lia].
Qed.

(** ** The command-line default *)

Section Default.
Context {TP Conn : Type} {parser_ops : ToolParserOps TP} {db_ops : DbOps Conn}
  {core_ops : CoreOps}.

(** C8.  When the command line does not give [--tool_num], the
    parameter is the module constant [TOOL_DETECTION_CUTOFF], which is
    2; this is the cutoff passed to the table of fusions and the number
    put into the text of the fusion list section of the index page, and
    the index page of a completed run of [main] is built from these
    parameters. *)
Theorem tool_num_defaults_to_cutoff (argv : CommandLine) (params : Params) :
  arg_tool_num argv = None ->
  parse_args argv = inr params ->
  tool_num params = TOOL_DETECTION_CUTOFF /\
  tool_num params = 2%Z /\
  (forall (parser : TP) (known unknown : list string),
     exists dashboard fusion_list,
       page_sections (generate_index params parser known unknown)
       = [dashboard; fusion_list] /\
       section_id fusion_list = "fusion_list" /\
       section_content fusion_list = Some (fusion_list_content "2" (sample params)) /\
       section_data fusion_list
       = create_fusions_table (get_fusions parser) (get_tools parser) known 2) /\
  (forall st : State Conn,
     main argv = (Some st, inr tt) ->
     exists pages parser,
       report st
       = pages ++ [generate_index params parser (known_fusions st) (unknown_fusions st)]).
Proof.
  intros Habsent Hargs.
  assert (Htool : tool_num params = TOOL_DETECTION_CUTOFF).
  { unfold parse_args in Hargs.
    destruct (arg_sample argv), (arg_output argv); try discriminate.
    injection Hargs as <-. cbn. now rewrite Habsent. }
  split; [exact Htool|]. split; [exact Htool|]. split.
  - intros parser known unknown. unfold generate_index. cbv zeta.
    eexists. eexists. split; [reflexivity|].
    cbn [section_id section_content section_data set_data new_section].
    rewrite Htool. repeat split.
  - intros st Hmain. unfold main, main_with in Hmain. rewrite Hargs in Hmain.
    destruct (generate_report_with print_progress_bar params) as [st' r] eqn:Hrun.
    injection Hmain as -> ->.
    apply generate_report_ok in Hrun.
    destruct Hrun as [parser pages _ _ _ _ _ _ _ _ R _ _].
    now exists pages, parser.
Qed.

End Default.

Lemma tool_num_defaults_to_cutoff_witness :
  arg_tool_num scenario_argv = None /\
  parse_args scenario_argv = inr scenario_params /\
  tool_num scenario_params = 2%Z.
Proof.
  split; [reflexivity|]. split; [reflexivity|].
  exact (proj1 (proj2 (@tool_num_defaults_to_cutoff _ unit one_call_parser
                         (table_db scenario_table) plain_charts
                         scenario_argv scenario_params eq_refl eq_refl))).
Defined.

(** A given [--tool_num] is taken as it is. *)
Example tool_num_given (argv : CommandLine) (params : Params) (n : Z) :
  arg_tool_num argv = Some n -> parse_args argv = inr params -> tool_num params = n.
Proof.
  intros Hgiven Hargs. unfold parse_args in Hargs.
  destruct (arg_sample argv), (arg_output argv); try discriminate.
  injection Hargs as <-. cbn. now rewrite Hgiven.
Qed.

(** ** The gene pair of a fusion page *)

Lemma page_queries_placeholders :
  placeholders variations_query = 2 /\ placeholders transcripts_query = 2 /\
  placeholders ppi_query = 2 /\ placeholders drugs_query = 2 /\
  placeholders diseases_query = 2 /\ placeholders reference_query = 0.
Proof. repeat split; vm_compute; reflexivity. Qed.

Lemma split_pair_identity (fusion h t : string) :
  split "--" fusion = [h; t] -> fusion = identity h t.
Proof.
  intros Hsplit. rewrite <- (join_split "-" "-" fusion).
  fold (split "--" fusion). rewrite Hsplit. reflexivity.
Qed.

(** With exactly one separator the database over a table answers the
    queries of the page; without one, or with two, it refuses them. *)
Example page_one_separator :
  snd (@generate_fusion_page _ _ one_call_parser (table_db scenario_table)
         plain_charts scenario_params scenario_parser "ABC--XYZ"
         (@initial_state _ (table_db scenario_table) scenario_params))
  <> inl (DbError "Incorrect number of bindings supplied").
Proof. vm_compute. discriminate. Qed.

Example page_no_separator :
  snd (@generate_fusion_page _ _ one_call_parser (table_db scenario_table)
         plain_charts scenario_params scenario_parser "ABCXYZ"
         (@initial_state _ (table_db scenario_table) scenario_params))
  = inl (DbError "Incorrect number of bindings supplied").
Proof. vm_compute. reflexivity. Qed.

Example page_two_separators :
  snd (@generate_fusion_page _ _ one_call_parser (table_db scenario_table)
         plain_charts scenario_params scenario_parser "A--B--C"
         (@initial_state _ (table_db scenario_table) scenario_params))
  = inl (DbError "Incorrect number of bindings supplied").
Proof. vm_compute. reflexivity. Qed.

(** An identity with two separators that the reference list holds is
    classified known, and the queries of its page are refused: the run
    ends there, after the page of the first fusion and before the index
    page. *)
Example page_refused_after_first_page :
  snd nested_run = inl (DbError "Incorrect number of bindings supplied") /\
  known_fusions (fst nested_run) = ["ABC--XYZ"; "A--B--C"] /\
  map page_title (report (fst nested_run)) = ["ABC--XYZ"].
Proof. vm_compute. repeat split. Qed.

(** ** Classification and the orientation of the gene pair *)

(** Gene symbols with single hyphens make unambiguous pairs. *)
Example unambiguous_hyphenated : unambiguous "HLA-A" "NKX2-1".
Proof. reflexivity. Qed.

Example ambiguous_trailing_hyphen : ~ unambiguous "A-" "B".
Proof. unfold unambiguous. vm_compute. discriminate. Qed.

Lemma fusion_pairs_reference_rows (table : ReferenceTable) :
  fusion_pairs (reference_rows table) = inr (map PStr (distinct_identities table)).
Proof.
  unfold reference_rows.
  induction (distinct_identities table) as [|s l IH]; [reflexivity|].
  cbn [map fusion_pairs]. rewrite IH. reflexivity.
Qed.

Lemma table_db_reference_list (table : ReferenceTable) (params : Params) :
  @reference_list _ (table_db table) params = map PStr (distinct_identities table).
Proof.
  unfold reference_list, get_db_fusions, bind, connect, select, lift.
  cbn [db_connect db_select table_db fst snd].
  rewrite String.eqb_refl. cbn [fst snd].
  now rewrite fusion_pairs_reference_rows.
Qed.

Lemma table_db_reference_holds (table : ReferenceTable) (params : Params) :
  reference_holds table (@reference_list _ (table_db table) params).
Proof.
  intros s. rewrite table_db_reference_list, in_map_iff. split.
  - intros (s' & [= ->] & Hin). unfold distinct_identities in Hin.
    apply nodup_In in Hin. apply in_map_iff in Hin.
    destruct Hin as ([h t] & <- & Hin). now exists h, t.
  - intros (h & t & Hin & ->). exists (identity h t). split; [reflexivity|].
    unfold distinct_identities. apply nodup_In. apply in_map_iff.
    now exists (h, t).
Qed.

Lemma split_without_separator (a : ascii) (sep' : string) (s : string) :
  count (String a sep') s = 0 -> split (String a sep') s = [s].
Proof.
  induction s as [|c s IH]; [reflexivity|].
  destruct (String.prefix (String a sep') (String c s)) eqn:Hp.
  - apply prefix_iff in Hp. destruct Hp as [r ->].
    rewrite count_at_sep. discriminate.
  - rewrite count_at_char, split_at_char by exact Hp.
    intros Hc. now rewrite IH.
Qed.

(** A head gene that does not end in a hyphen and a tail gene, both
    without two hyphens in a row, make an unambiguous pair. *)
Lemma unambiguous_symbols (h t : string) :
  count "--" (h ++ "-")%string = 0 -> count "--" t = 0 -> unambiguous h t.
Proof.
  unfold unambiguous, identity. intros Hh Ht.
  induction h as [|c h IH].
  - change (EmptyString ++ "--" ++ t)%string with ("--" ++ t)%string.
    rewrite split_at_sep. now rewrite split_without_separator.
  - cbn [append] in *.
    assert (Hp : String.prefix "--" (String c (h ++ "-")%string) = false).
    { destruct (String.prefix "--" (String c (h ++ "-")%string)) eqn:Hp;
        [|reflexivity].
      apply prefix_iff in Hp. destruct Hp as [r Hr]. rewrite Hr in Hh.
      rewrite count_at_sep in Hh. discriminate. }
    rewrite count_at_char in Hh by exact Hp.
    assert (Hq : String.prefix "--" (String c (h ++ "--" ++ t)%string) = false).
    { destruct (String.prefix "--" (String c (h ++ "--" ++ t)%string)) eqn:Hq;
        [|reflexivity].
      apply prefix_iff in Hq. destruct Hq as [r Hr].
      assert (Htrue : String.prefix "--" (String c (h ++ "-")%string) = true).
      { apply prefix_iff. cbn [append] in Hr. injection Hr as -> Hr.
        destruct h as [|d h]; cbn [append] in *.
        - now exists EmptyString.
        - injection Hr as -> _. now exists (h ++ "-")%string. }
      congruence. }
    rewrite split_at_char by exact Hq. now rewrite IH.
Qed.

Section Orientation.
Context {TP Conn : Type} {parser_ops : ToolParserOps TP} {db_ops : DbOps Conn}
  {core_ops : CoreOps}.

(** C4, amended.  The classification compares the serialised identity
    with the serialised rows of the reference table, as strings and
    without reordering the genes.  When the pair and the rows of the
    table are unambiguous, a parsed identity [A--B] is known exactly
    when the table has the row with head [A] and tail [B], and unknown
    exactly when it has not, also when the table has the row with head
    [B] and tail [A]. *)
Theorem known_iff_pair_in_table (params : Params) (st : State Conn)
    (table : ReferenceTable) (A B : string) :
  generate_report params = (st, inr tt) ->
  reference_holds table (reference_list params) ->
  (forall h t, In (h, t) table -> unambiguous h t) ->
  unambiguous A B ->
  In (identity A B) (parsed_fusions params) ->
  (In (identity A B) (known_fusions st) <-> In (A, B) table) /\
  (In (identity A B) (unknown_fusions st) <-> ~ In (A, B) table) /\
  (In (B, A) table -> ~ In (A, B) table -> In (identity A B) (unknown_fusions st)).
Proof.
  intros Hrun Href Htable HAB Hparsed.
  apply generate_report_ok in Hrun.
  destruct Hrun as [parser pages _ K U _ _ _ _ _ _ _ _].
  assert (Hpair : In (PStr (identity A B)) (reference_list params) <-> In (A, B) table).
  { rewrite (Href (identity A B)). split.
    - intros (h & t & Hin & Heq).
      pose proof (Htable h t Hin) as Hht. unfold unambiguous in Hht, HAB.
      rewrite <- Heq, HAB in Hht. injection Hht as -> ->. exact Hin.
    - intros Hin. now exists A, B. }
  rewrite K, U, in_found, in_missing, Hpair. tauto.
Qed.

End Orientation.

Lemma known_iff_pair_in_table_witness :
  scenario_run = (fst scenario_run, inr tt) /\
  (In (identity "ABC" "XYZ") (known_fusions (fst scenario_run))
   <-> In ("ABC", "XYZ") scenario_table).
Proof.
  assert (Hrun : scenario_run = (fst scenario_run, inr tt))
    by (vm_compute; reflexivity).
  split; [exact Hrun|].
  refine (proj1 (@known_iff_pair_in_table _ _ one_call_parser
                   (table_db scenario_table) plain_charts scenario_params
                   (fst scenario_run) scenario_table "ABC" "XYZ" Hrun
                   (table_db_reference_holds scenario_table scenario_params)
                   _ _ _)).
  - intros h t [[= <- <-]|[]]. reflexivity.
  - reflexivity.
  - left. reflexivity.
Defined.

(** C4 as stated fails: the identity of the pair of [A] and [-B] is
    classified known although the table has no row with head [A] and
    tail [-B]; its only row has head [A-] and tail [B]. *)
Lemma known_without_pair_in_table :
  snd hyphen_run = inr tt /\
  @parsed_fusions _ one_call_parser hyphen_params = [identity "A" "-B"] /\
  split "--" (identity "A" "-B") = ["A"; "-B"] /\
  In (identity "A" "-B") (known_fusions (fst hyphen_run)) /\
  ~ In ("A", "-B") hyphen_table.
Proof.
  split; [vm_compute; reflexivity|].
  split; [reflexivity|].
  split; [reflexivity|].
  split.
  - vm_compute. left. reflexivity.
  - intros [[=]|[]].
Qed.

(** ** Runs that end with an exception *)

Section Outcomes.
Context {TP Conn : Type} {parser_ops : ToolParserOps TP} {db_ops : DbOps Conn}
  {core_ops : CoreOps}.

Lemma select_result (q : string) (p : option (list string)) (st st' : State Conn)
    (r : result (list PyVal)) :
  select q p st = (st', r) -> snd (db_select q p (db st)) = r.
Proof.
  unfold select. destruct (db_select q p (db st)) as [c r']. now intros [= _ <-].
Qed.

(** The queries of a page are made in their order and stop at the
    first one that raises. *)
Lemma generate_fusion_page_prefix (params : Params) (parser : TP) (fusion : string)
    (st st' : State Conn) (r : result Page) :
  generate_fusion_page params parser fusion st = (st', r) ->
  exists k,
    1 <= k <= 5 /\
    db_calls st' = db_calls st ++ firstn k (fusion_page_calls fusion) /\
    (forall page, r = inr page -> k = 5) /\
    (forall e, r = inl e ->
       exists q c,
         nth_error (fusion_page_calls fusion) (k - 1)
         = Some (Select q (Some (split "--" fusion))) /\
         snd (db_select q (Some (split "--" fusion)) c) = inl e).
Proof.
  unfold generate_fusion_page, bind. intros Hrun.
  destruct (select variations_query _ st) as [s1 [e1|r1]] eqn:E1.
  { injection Hrun as <- <-. exists 1.
    pose proof E1 as R1. apply select_result in R1.
    apply select_only_db in E1. destruct E1 as [_ C1].
    split; [lia|]. split; [exact C1|]. split; [discriminate|].
    intros e [= <-]. exists variations_query, (db st).
    split; [reflexivity|exact R1]. }
  destruct (select transcripts_query _ s1) as [s2 [e2|r2]] eqn:E2.
  { injection Hrun as <- <-. exists 2.
    pose proof E2 as R2. apply select_result in R2.
    apply select_only_db in E1, E2. destruct E1 as [_ C1], E2 as [_ C2].
    split; [lia|]. split; [rewrite C2, C1, <- app_assoc; reflexivity|].
    split; [discriminate|]. intros e [= <-]. exists transcripts_query, (db s1).
    split; [reflexivity|exact R2]. }
  destruct (select ppi_query _ s2) as [s3 [e3|r3]] eqn:E3.
  { injection Hrun as <- <-. exists 3.
    pose proof E3 as R3. apply select_result in R3.
    apply select_only_db in E1, E2, E3.
    destruct E1 as [_ C1], E2 as [_ C2], E3 as [_ C3].
    split; [lia|].
    split; [rewrite C3, C2, C1; repeat rewrite <- app_assoc; reflexivity|].
    split; [discriminate|]. intros e [= <-]. exists ppi_query, (db s2).
    split; [reflexivity|exact R3]. }
  destruct (select drugs_query _ s3) as [s4 [e4|r4]] eqn:E4.
  { injection Hrun as <- <-. exists 4.
    pose proof E4 as R4. apply select_result in R4.
    apply select_only_db in E1, E2, E3, E4.
    destruct E1 as [_ C1], E2 as [_ C2], E3 as [_ C3], E4 as [_ C4].
    split; [lia|].
    split; [rewrite C4, C3, C2, C1; repeat rewrite <- app_assoc; reflexivity|].
    split; [discriminate|]. intros e [= <-]. exists drugs_query, (db s3).
    split; [reflexivity|exact R4]. }
  destruct (select diseases_query _ s4) as [s5 [e5|r5]] eqn:E5.
  { injection Hrun as <- <-. exists 5.
    pose proof E5 as R5. apply select_result in R5.
    apply select_only_db in E1, E2, E3, E4, E5.
    destruct E1 as [_ C1], E2 as [_ C2], E3 as [_ C3], E4 as [_ C4], E5 as [_ C5].
    split; [lia|].
    split; [rewrite C5, C4, C3, C2, C1; repeat rewrite <- app_assoc; reflexivity|].
    split; [discriminate|]. intros e [= <-]. exists diseases_query, (db s4).
    split; [reflexivity|exact R5]. }
  injection Hrun as <- <-. exists 5.
  apply select_only_db in E1, E2, E3, E4, E5.
  destruct E1 as [_ C1], E2 as [_ C2], E3 as [_ C3], E4 as [_ C4], E5 as [_ C5].
  split; [lia|].
  split; [rewrite C5, C4, C3, C2, C1; repeat rewrite <- app_assoc; reflexivity|].
  split; [reflexivity|]. discriminate.
Qed.

(** The body of the loop either goes through its fusion, where only
    the call of the bar at its end can raise, or stops in the page of
    the fusion, which is then a known one. *)
Lemma classify_one_outcome (params : Params) (parser : TP) (db_fusions : list PyVal)
    (total i : nat) (fusion : string) (st st' : State Conn) (r : result unit) :
  classify_one print_progress_bar params parser db_fusions total i fusion st
  = (st', r) ->
  (classified db_fusions total i [fusion] st st' /\
   r = bar_outcome (i + 1) total 50) \/
  (exists e, r = inl e /\ failed_on db_fusions total i [] fusion st st').
Proof.
  unfold classify_one, classified, failed_on, found, missing, progress_steps.
  unfold bind at 1. unfold not_in at 1. cbn [negb filter List.length seq map flat_map].
  destruct (py_in fusion db_fusions) eqn:Hin; cbn [negb].
  - unfold bind at 1. unfold append_known at 1. unfold bind at 1.
    destruct (generate_fusion_page _ _ _ _) as [s1 [e1|page]] eqn:Hpage.
    + intros [= <- <-]. right. exists e1. split; [reflexivity|].
      pose proof Hpage as Hcalls. apply generate_fusion_page_prefix in Hcalls.
      destruct Hcalls as (k & Hk & C & _).
      apply generate_fusion_page_calls in Hpage.
      destruct Hpage as ((R & P & S & O & L & K & U) & _).
      cbn in R, P, S, O, L, K, U, C.
      rewrite K, U, L, P, S, O, R, C. repeat rewrite app_nil_r.
      repeat split; try lia.
      * exists k. split; [exact Hk|reflexivity].
      * exists []. rewrite app_nil_r. repeat split. constructor.
    + apply generate_fusion_page_ok in Hpage.
      destruct Hpage as ((R & P & S & O & L & K & U) & C & T & F).
      cbn in R, P, S, O, L, K, U, C.
      unfold bind, add_page, sleep, print_progress_bar. intros [= <- <-]. cbn.
      left. split; [|reflexivity].
      rewrite K, U, L, P, S, O, C, R. repeat rewrite app_nil_r.
      repeat split; try lia.
      exists [page]. cbn. rewrite T. repeat split. constructor; [exact F|constructor].
  - unfold bind, append_unknown, sleep, print_progress_bar. intros [= <- <-]. cbn.
    left. split; [|reflexivity].
    repeat rewrite app_nil_r. repeat split; try lia.
    exists []. rewrite app_nil_r. repeat split. constructor.
Qed.

Lemma failed_on_cons (db_fusions : list PyVal) (total i : nat) (x : string)
    (done : list string) (f : string) (st st1 st2 : State Conn) :
  classified db_fusions total i [x] st st1 ->
  failed_on db_fusions total (S i) done f st1 st2 ->
  failed_on db_fusions total i (x :: done) f st st2.
Proof.
  unfold classified, failed_on.
  intros (K1 & U1 & L1 & P1 & S1 & O1 & C1 & pages1 & R1 & T1 & F1)
         (Hin & K2 & U2 & L2 & P2 & S2 & O2 & (k & Hk & C2) & pages2 & R2 & T2 & F2).
  assert (Hf : found db_fusions (x :: done)
               = found db_fusions [x] ++ found db_fusions done)
    by (unfold found; simpl; now destruct (py_in x db_fusions)).
  assert (Hm : missing db_fusions (x :: done)
               = missing db_fusions [x] ++ missing db_fusions done)
    by (unfold missing; simpl; now destruct (py_in x db_fusions)).
  rewrite Hf, Hm, flat_map_app.
  rewrite K2, K1, U2, U1, L2, L1, P2, P1, S2, S1, O2, O1, C2, C1.
  repeat rewrite <- app_assoc. simpl.
  split; [exact Hin|]. repeat split; try lia.
  - exists k. split; [exact Hk|]. repeat rewrite <- app_assoc. reflexivity.
  - exists (pages1 ++ pages2). rewrite R2, R1, map_app, T1, T2, <- app_assoc.
    repeat split. apply Forall_app. now split.
Qed.

Lemma classify_from_fails (params : Params) (parser : TP) (db_fusions : list PyVal)
    (total : nat) (fusions : list string) (e : Exception) :
  forall (i : nat) (st st' : State Conn),
    classify_from print_progress_bar params parser db_fusions total i fusions st
    = (st', inl e) ->
    (exists done f rest,
       fusions = done ++ f :: rest /\ failed_on db_fusions total i done f st st') \/
    (exists done rest,
       fusions = done ++ rest /\ done <> [] /\
       classified db_fusions total i done st st' /\
       bar_outcome (i + List.length done) total 50 = inl e).
Proof.
  induction fusions as [|fusion rest IH]; intros i st st' Hrun.
  - discriminate.
  - cbn [classify_from] in Hrun. unfold bind in Hrun.
    destruct (classify_one _ _ _ _ _ _ _ st) as [s1 r1] eqn:Hone.
    apply classify_one_outcome in Hone.
    destruct Hone as [[Hdone Hr1]|(e1 & -> & Hfail)].
    + destruct r1 as [e1|[]].
      * injection Hrun as <- <-. right. exists [fusion], rest.
        split; [reflexivity|]. split; [discriminate|]. split; [exact Hdone|].
        now symmetry.
      * apply IH in Hrun.
        destruct Hrun as [(done & f & rest' & -> & Hfail)
                         |(done & rest' & -> & _ & Hdone' & Hbar)].
        -- left. exists (fusion :: done), f, rest'. split; [reflexivity|].
           eapply failed_on_cons; eassumption.
        -- right. exists (fusion :: done), rest'. split; [reflexivity|].
           split; [discriminate|]. split.
           ++ eapply classified_cons; eassumption.
           ++ cbn [List.length]. now rewrite Nat.add_succ_r.
    + injection Hrun as <- <-. left. now exists [], fusion, rest.
Qed.

Lemma get_db_fusions_fails_calls (st st1 : State Conn) (e : Exception) :
  get_db_fusions st = (st1, inl e) ->
  db_calls st1 = db_calls st ++ [Connect "fusiongdb"] \/
  db_calls st1 = db_calls st ++ [Connect "fusiongdb"; Select reference_query None].
Proof.
  unfold get_db_fusions, bind, lift. intros Hrun.
  destruct (connect "fusiongdb" st) as [s1 r1] eqn:E1.
  apply connect_only_db in E1. destruct E1 as [_ C1].
  destruct r1 as [e1|[]]; [injection Hrun as <- _; now left|].
  destruct (select reference_query None s1) as [s2 r2] eqn:E2.
  apply select_only_db in E2. destruct E2 as [_ C2].
  right. destruct r2 as [e2|rows]; injection Hrun as <- _;
    rewrite C2, C1, <- app_assoc; reflexivity.
Qed.

(** A run that ends with an exception ended in one of four places. *)
Lemma generate_report_fails (params : Params) (st : State Conn) (e : Exception) :
  generate_report params = (st, inl e) -> failed params st e.
Proof.
  unfold generate_report, generate_report_with, generate_report_body.
  intros Hrun. unfold bind at 1 in Hrun. unfold lift at 1 in Hrun.
  destruct (parse params) as [e0|parser] eqn:Hparse.
  { injection Hrun as <- <-. now apply FailedParse. }
  unfold bind at 1 in Hrun.
  destruct (get_db_fusions (initial_state params)) as [s1 [e1|db_fusions]] eqn:Hdb.
  { injection Hrun as <- <-. now apply FailedLookup with (parser := parser). }
  assert (Hfus : parsed_fusions params = fusion_ids (get_fusions parser))
    by (unfold parsed_fusions; now rewrite Hparse).
  assert (Href : reference_list params = db_fusions)
    by (unfold reference_list; now rewrite Hdb).
  rewrite <- Hfus in Hrun.
  pose proof Hdb as Hcalls. apply get_db_fusions_calls in Hcalls.
  apply get_db_fusions_only_db in Hdb.
  destruct Hdb as (R1 & P1 & S1 & O1 & L1 & K1 & U1).
  cbn in R1, P1, S1, O1, L1, K1, U1, Hcalls.
  unfold bind at 1 in Hrun. unfold print_progress_bar at 1 in Hrun.
  destruct (bar_outcome 0 (List.length (parsed_fusions params)) 50)
    as [e2|[]] eqn:Hbar0.
  { injection Hrun as <- <-.
    apply FailedBar with (parser := parser) (done := [])
                         (rest := parsed_fusions params); cbn;
      try assumption; try reflexivity.
    - now rewrite P1.
    - now rewrite R1.
    - rewrite R1. constructor. }
  unfold bind at 1 in Hrun.
  destruct (classify_from _ _ _ _ _ _ _ _) as [s3 [e3|[]]] eqn:Hloop.
  2:{ unfold bind, gets, add_page, print in Hrun. discriminate. }
  injection Hrun as <- <-.
  apply classify_from_fails in Hloop.
  rewrite <- Href in *.
  destruct Hloop as [(done & f & rest & Hsplit &
                      Hin & K & U & L & P & S & O & (k & Hk & C) & pages & R & T & F)
                    |(done & rest & Hsplit & _ &
                      (K & U & L & P & S & O & C & pages & R & T & F) & Hbar)];
    cbn in K, U, L, P, S, O, C, R;
    rewrite K1 in K; rewrite U1 in U; rewrite L1 in L; rewrite P1 in P;
    rewrite S1 in S; rewrite O1 in O; rewrite Hcalls in C; rewrite R1 in R;
    cbn in K, U, L, P, S, O, C, R.
  - apply FailedPage with (parser := parser) (done := done) (f := f) (rest := rest);
      try assumption.
    + now apply py_in_iff.
    + exists k. split; [exact Hk|exact C].
    + now rewrite R.
    + now rewrite R.
  - apply FailedBar with (parser := parser) (done := done) (rest := rest);
      try assumption.
    + now rewrite R.
    + now rewrite R.
Qed.

End Outcomes.

(** ** What every run keeps *)

Lemma forall_firstn {A : Type} (P : A -> Prop) (n : nat) (l : list A) :
  Forall P l -> Forall P (firstn n l).
Proof.
  intros Hall. rewrite <- (firstn_skipn n l) in Hall.
  now apply Forall_app in Hall.
Qed.

Lemma fusion_page_calls_select (fusion : string) :
  Forall is_select (fusion_page_calls fusion).
Proof. unfold fusion_page_calls. repeat constructor. Qed.

Lemma length_page_calls (fusions : list string) :
  List.length (flat_map fusion_page_calls fusions) = 5 * List.length fusions.
Proof.
  induction fusions as [|f rest IH]; [reflexivity|].
  cbn [flat_map]. rewrite length_app, IH. cbn [fusion_page_calls List.length]. lia.
Qed.

Lemma in_progress_steps (total n i t w : nat) :
  In (i, t, w) (progress_steps total 0 n) -> 1 <= i <= n /\ t = total /\ w = 50.
Proof.
  unfold progress_steps. rewrite in_map_iff.
  intros (k & [= <- <- <-] & Hk). apply in_seq in Hk. lia.
Qed.

Section EveryRun.
Context {TP Conn : Type} {parser_ops : ToolParserOps TP} {db_ops : DbOps Conn}
  {core_ops : CoreOps}.

(** X1.  When the parser raises, the run ends with that exception
    before the database object is used: no call is made on it, no
    identity is tested, no page is added and nothing is printed. *)
Theorem parser_error_aborts (params : Params) (st : State Conn) (e : Exception)
    (r : result unit) :
  parse params = inl e ->
  generate_report params = (st, r) ->
  r = inl e /\ db_calls st = [] /\ lookups st = [] /\ report st = [] /\
  progress st = [] /\ stdout st = [] /\ slept st = 0.
Proof.
  intros Hparse Hrun.
  unfold generate_report, generate_report_with, generate_report_body in Hrun.
  unfold bind at 1 in Hrun. unfold lift at 1 in Hrun. rewrite Hparse in Hrun.
  injection Hrun as <- <-. repeat split.
Qed.

(** X5.  A run that ends with an exception prints nothing and adds no
    index page.  Its pages are the pages of the known fusions among the
    fusions [done] the loop went through, its unknown list is the
    unknown fusions among them, and its known list is the known fusions
    among them, followed by the fusion whose page raised if the
    exception came from a page; that fusion is in the reference list. *)
Theorem failed_run_is_partial (params : Params) (st : State Conn) (e : Exception) :
  generate_report params = (st, inl e) ->
  stdout st = [] /\
  Forall (fun p => partial_template p = "fusion") (report st) /\
  exists done rest,
    parsed_fusions params = done ++ rest /\
    map page_title (report st) = found (reference_list params) done /\
    unknown_fusions st = missing (reference_list params) done /\
    (known_fusions st = found (reference_list params) done /\ lookups st = done \/
     exists f rest',
       rest = f :: rest' /\ In (PStr f) (reference_list params) /\
       known_fusions st = found (reference_list params) done ++ [f] /\
       lookups st = done ++ [f]).
Proof.
  intros Hrun. apply generate_report_fails in Hrun.
  destruct Hrun as [Hparse ->|parser Hparse Hdb
                   |parser done f rest Hparse Hat Hin K U L P S O C T F
                   |parser done rest Hparse Hat Hbar K U L P S O C T F].
  - split; [reflexivity|]. split; [constructor|].
    exists [], (parsed_fusions params). repeat split. now left.
  - apply get_db_fusions_only_db in Hdb.
    destruct Hdb as (R & P & S & O & L & K & U).
    cbn in R, P, S, O, L, K, U. rewrite R, O, K, U, L.
    split; [reflexivity|]. split; [constructor|].
    exists [], (parsed_fusions params). repeat split. now left.
  - split; [exact O|]. split; [exact F|].
    exists done, (f :: rest). repeat split; try assumption.
    right. now exists f, rest.
  - split; [exact O|]. split; [exact F|].
    exists done, rest. repeat split; try assumption.
    left. now split.
Qed.

(** X7.  Whatever the outcome of a run, the database is connected
    before it is queried and is connected at most once: the calls made
    on it are none, or one [connect] followed by queries only. *)
Theorem database_connected_first (params : Params) (st : State Conn)
    (r : result unit) :
  generate_report params = (st, r) ->
  db_calls st = [] \/
  exists queries, db_calls st = Connect "fusiongdb" :: queries /\
                  Forall is_select queries.
Proof.
  intros Hrun. destruct r as [e|[]].
  - apply generate_report_fails in Hrun.
    destruct Hrun as [Hparse ->|parser Hparse Hdb
                     |parser done f rest Hparse Hat Hin K U L P S O C T F
                     |parser done rest Hparse Hat Hbar K U L P S O C T F].
    + now left.
    + right. apply get_db_fusions_fails_calls in Hdb. cbn in Hdb.
      destruct Hdb as [-> | ->].
      * exists []. split; [reflexivity|constructor].
      * eexists. split; [reflexivity|]. repeat constructor.
    + right. destruct C as (k & _ & ->).
      eexists. split; [reflexivity|].
      constructor; [exact I|]. apply Forall_app. split.
      * apply Forall_flat_map. apply Forall_forall. intros g _.
        apply fusion_page_calls_select.
      * apply forall_firstn. apply fusion_page_calls_select.
    + right. rewrite C. eexists. split; [reflexivity|].
      constructor; [exact I|]. apply Forall_flat_map. apply Forall_forall.
      intros g _. apply fusion_page_calls_select.
  - right. apply generate_report_ok in Hrun.
    destruct Hrun as [parser pages _ _ _ _ _ _ _ -> _ _ _].
    eexists. split; [reflexivity|].
    constructor; [exact I|]. apply Forall_flat_map. apply Forall_forall.
    intros g _. apply fusion_page_calls_select.
Qed.

(** X8.  Whatever the outcome of a run, every call of the progress bar
    has the number of parsed fusions as its total, the width 50 and an
    index that does not exceed the total, and no index is reported
    twice; when the run completes, the last call reports the total
    itself. *)
Theorem progress_within_bounds (params : Params) (st : State Conn)
    (r : result unit) :
  generate_report params = (st, r) ->
  (forall i total width,
     In (i, total, width) (progress st) ->
     i <= total /\ total = List.length (parsed_fusions params) /\ width = 50) /\
  NoDup (map (fun c => fst (fst c)) (progress st)) /\
  (r = inr tt ->
   last (progress st) (0, 0, 0)
   = (List.length (parsed_fusions params), List.length (parsed_fusions params), 50)).
Proof.
  intros Hrun.
  assert (Hshape : progress st = [] /\ r <> inr tt \/
                   exists k, k <= List.length (parsed_fusions params) /\
                     (r = inr tt -> k = List.length (parsed_fusions params)) /\
                     progress st
                     = (0, List.length (parsed_fusions params), 50)
                       :: progress_steps (List.length (parsed_fusions params)) 0 k).
  { destruct r as [e|[]].
    - apply generate_report_fails in Hrun.
      destruct Hrun as [Hparse ->|parser Hparse Hdb
                       |parser done f rest Hparse Hat Hin K U L P S O C T F
                       |parser done rest Hparse Hat Hbar K U L P S O C T F].
      + left. split; [reflexivity|discriminate].
      + left. apply get_db_fusions_only_db in Hdb.
        destruct Hdb as (_ & P & _). split; [exact P|discriminate].
      + right. exists (List.length done). split; [|split; [discriminate|exact P]].
        rewrite Hat, length_app. cbn. lia.
      + right. exists (List.length done). split; [|split; [discriminate|exact P]].
        rewrite Hat, length_app. lia.
    - right. apply generate_report_ok in Hrun.
      destruct Hrun as [parser pages _ _ _ _ P _ _ _ _ _ _].
      exists (List.length (parsed_fusions params)). now repeat split. }
  destruct Hshape as [[-> Hr]|(k & Hk & Hlast & ->)].
  - split; [intros i total width []|]. split; [constructor|]. intros ->. congruence.
  - split; [|split].
    + intros i total width [[= <- <- <-]|Hin]; [lia|].
      apply in_progress_steps in Hin. lia.
    + cbn [map fst]. unfold progress_steps. rewrite map_map. cbn [fst].
      constructor.
      * rewrite in_map_iff. intros (j & Hj & _). lia.
      * apply Finite.Injective_map_NoDup; [|apply seq_NoDup].
        intros a b. lia.
    + intros Hr. rewrite (Hlast Hr).
      destruct (List.length (parsed_fusions params)) as [|n]; [reflexivity|].
      unfold progress_steps. rewrite seq_S, map_app. cbn [map].
      change ((0, S n, 50) :: ?l ++ [?x]) with (((0, S n, 50) :: l) ++ [x]).
      rewrite last_last. f_equal. f_equal. lia.
Qed.

(** X9.  What a completed run costs: two calls on the database for the
    reference list and five queries for each known fusion, none for an
    unknown one; one sleep for each parsed fusion; one printed line, the
    final message. *)
Theorem completed_run_cost (params : Params) (st : State Conn) :
  generate_report params = (st, inr tt) ->
  List.length (db_calls st) = 2 + 5 * List.length (known_fusions st) /\
  slept st = List.length (parsed_fusions params) /\
  stdout st = [final_message params].
Proof.
  intros Hrun. apply generate_report_ok in Hrun.
  destruct Hrun as [parser pages _ _ _ _ _ S O C _ _ _].
  rewrite C, length_app, length_page_calls. cbn [List.length].
  repeat split; assumption.
Qed.

End EveryRun.

(** ** Reading the rows of the reference query *)

(** X2.  Reading [fusion_pair] from the rows of the reference query
    gives one value per row, in order, when every row has the key; when
    a row has not, the exception is the one of the first such row. *)
Theorem row_reading_all_or_first_error (rows : list PyVal) :
  (forall l,
     fusion_pairs rows = inr l <->
     Forall2 (fun x v => subscript x "fusion_pair" = inr v) rows l) /\
  (forall e,
     fusion_pairs rows = inl e <->
     exists good bad rest,
       rows = good ++ bad :: rest /\
       Forall (fun x => exists v, subscript x "fusion_pair" = inr v) good /\
       subscript bad "fusion_pair" = inl e).
Proof.
  induction rows as [|x rows [IHok IHerr]].
  - split.
    + intros l. cbn. split.
      * intros [= <-]. constructor.
      * intros Hall. inversion Hall. reflexivity.
    + intros e. cbn. split; [discriminate|].
      intros ([|g good] & bad & rest & Hsplit & _); discriminate.
  - cbn [fusion_pairs].
    destruct (subscript x "fusion_pair") as [e0|v] eqn:Hx.
    + split.
      * intros l. split; [discriminate|].
        intros Hall. inversion Hall. congruence.
      * intros e. split.
        -- intros [= <-]. exists [], x, rows. repeat split; [constructor|exact Hx].
        -- intros ([|g good] & bad & rest & Hsplit & Hgood & Hbad).
           ++ cbn in Hsplit. injection Hsplit as <- _. congruence.
           ++ cbn in Hsplit. injection Hsplit as <- _.
              inversion Hgood as [|? ? [v Hv] _]. congruence.
    + destruct (fusion_pairs rows) as [e1|vs] eqn:Hrows.
      * split.
        -- intros l. split; [discriminate|].
           intros Hall. inversion Hall as [|? v' ? l' _ Hrest]. subst.
           apply IHok in Hrest. discriminate.
        -- intros e. split.
           ++ intros [= <-].
              destruct (proj1 (IHerr e1) eq_refl)
                as (good & bad & rest & -> & Hgood & Hbad).
              exists (x :: good), bad, rest. repeat split; [|exact Hbad].
              constructor; [now exists v|exact Hgood].
           ++ intros ([|g good] & bad & rest & Hsplit & Hgood & Hbad).
              ** cbn in Hsplit. injection Hsplit as <- _. congruence.
              ** cbn in Hsplit. injection Hsplit as <- ->.
                 inversion Hgood as [|? ? _ Hgood']. subst.
                 apply IHerr. now exists good, bad, rest.
      * split.
        -- intros l. split.
           ++ intros [= <-]. constructor; [exact Hx|]. now apply IHok.
           ++ intros Hall. inversion Hall as [|? v' ? l' Hv Hrest]. subst.
              apply IHok in Hrest. congruence.
        -- intros e. split; [discriminate|].
           intros ([|g good] & bad & rest & Hsplit & Hgood & Hbad).
           ++ cbn in Hsplit. injection Hsplit as <- _. congruence.
           ++ cbn in Hsplit. injection Hsplit as <- ->.
              inversion Hgood as [|? ? _ Hgood']. subst.
              assert (Hfail : @inr Exception (list PyVal) vs = inl e)
                by (apply IHerr; now exists good, bad, rest).
              discriminate.
Qed.

(** A row without the key, and a row that is not a dictionary. *)
Example row_without_key :
  fusion_pairs [PDict [("fusion_pair", PStr "ABC--XYZ")]; PDict [("pair", PStr "A--B")]]
  = inl (KeyError "fusion_pair").
Proof. reflexivity. Qed.

Example row_not_a_dict :
  fusion_pairs [PStr "ABC--XYZ"]
  = inl (TypeError "object is not subscriptable by str").
Proof. reflexivity. Qed.

(** ** The parts of a split *)

Lemma append_empty_r (s : string) : (s ++ EmptyString)%string = s.
Proof. induction s; simpl; congruence. Qed.

Lemma split_head_prefix (a : ascii) (sep' : string) (s p0 : string)
    (ps : list string) :
  split (String a sep') s = p0 :: ps -> exists r, s = (p0 ++ r)%string.
Proof.
  intros Hsplit. pose proof (join_split a sep' s) as Hjoin.
  rewrite Hsplit in Hjoin. destruct ps as [|p1 ps].
  - exists EmptyString. cbn in Hjoin. now rewrite append_empty_r.
  - eexists. symmetry. exact Hjoin.
Qed.

Lemma split_parts_clean (a : ascii) (sep' : string) (s : string) :
  Forall (fun part => count (String a sep') part = 0) (split (String a sep') s).
Proof.
  remember (String.length s) as n eqn:Hn.
  revert s Hn. induction n as [n IH] using lt_wf_ind. intros s Hn.
  destruct s as [|c s]; [repeat constructor|].
  destruct (String.prefix (String a sep') (String c s)) eqn:Hp.
  - apply prefix_iff in Hp. destruct Hp as [r Hr]. rewrite Hr.
    rewrite split_at_sep. constructor; [reflexivity|].
    apply (IH (String.length r)); [|reflexivity].
    subst n. rewrite Hr, length_append. simpl. lia.
  - rewrite split_at_char by exact Hp.
    assert (Hrest : Forall (fun part => count (String a sep') part = 0)
                      (split (String a sep') s))
      by (apply (IH (String.length s)); [subst n; simpl; lia|reflexivity]).
    destruct (split (String a sep') s) as [|p0 ps] eqn:Hsplit.
    + exfalso. exact (split_go_not_nil _ _ _ Hsplit).
    + cbn [cons_head]. inversion Hrest as [|? ? Hp0 Hps]. subst.
      constructor; [|exact Hps].
      assert (Hq : String.prefix (String a sep') (String c p0) = false).
      { destruct (String.prefix (String a sep') (String c p0)) eqn:Hq;
          [|reflexivity].
        apply prefix_iff in Hq. destruct Hq as [r Hr].
        apply split_head_prefix in Hsplit. destruct Hsplit as [r' ->].
        assert (String.prefix (String a sep') (String c (p0 ++ r')%string) = true).
        { apply prefix_iff. exists (r ++ r')%string.
          change (String c (p0 ++ r')%string) with (String c p0 ++ r')%string.
          rewrite Hr. apply append_assoc. }
        congruence. }
      now rewrite count_at_char.
Qed.

(** X11.  Splitting an identity on the separator loses nothing and
    leaves no separator behind: joining the parts with the separator
    gives the identity back, there is at least one part, and no part
    holds the separator. *)
Theorem split_round_trip (fusion : string) :
  join "--" (split "--" fusion) = fusion /\
  split "--" fusion <> [] /\
  Forall (fun part => count "--" part = 0) (split "--" fusion).
Proof.
  split; [apply join_split|]. split; [apply split_go_not_nil|].
  apply split_parts_clean.
Qed.

(** ** The pages of the fusions *)

Section Pages.
Context {TP Conn : Type} {parser_ops : ToolParserOps TP} {db_ops : DbOps Conn}
  {core_ops : CoreOps}.

(** X3.  A fusion page makes its five queries in a fixed order and
    stops at the first one that raises: the calls it makes are the
    first [k] of the five, all five when the page is built, and when it
    raises, the exception is the one of the last query made.  It changes
    nothing else of the state. *)
Theorem page_queries_stop_at_first_error (params : Params) (parser : TP)
    (fusion : string) (st : State Conn) :
  only_db st (fst (generate_fusion_page params parser fusion st)) /\
  exists k,
    1 <= k <= 5 /\
    db_calls (fst (generate_fusion_page params parser fusion st))
    = db_calls st ++ firstn k (fusion_page_calls fusion) /\
    (forall page,
       snd (generate_fusion_page params parser fusion st) = inr page -> k = 5) /\
    (forall e,
       snd (generate_fusion_page params parser fusion st) = inl e ->
       exists q c,
         nth_error (fusion_page_calls fusion) (k - 1)
         = Some (Select q (Some (split "--" fusion))) /\
         snd (db_select q (Some (split "--" fusion)) c) = inl e).
Proof.
  destruct (generate_fusion_page params parser fusion st) as [st' r] eqn:Hrun.
  cbn [fst snd]. split.
  - apply generate_fusion_page_calls in Hrun. tauto.
  - now apply generate_fusion_page_prefix in Hrun.
Qed.

(** X10.  For a head gene that does not end in a hyphen and a tail
    gene, both without two hyphens in a row, every query of the page of
    their identity is made with the head gene and the tail gene, in this
    order, as its two parameters, and is well formed. *)
Theorem page_queries_get_head_and_tail (params : Params) (parser : TP)
    (h t : string) (st : State Conn) :
  count "--" (h ++ "-")%string = 0 ->
  count "--" t = 0 ->
  exists calls,
    db_calls (fst (generate_fusion_page params parser (identity h t) st))
    = db_calls st ++ calls /\
    Forall (fun c => (exists q, c = Select q (Some [h; t])) /\ well_formed c) calls.
Proof.
  intros Hh Ht.
  pose proof (unambiguous_symbols h t Hh Ht) as Hpair. unfold unambiguous in Hpair.
  destruct (generate_fusion_page params parser (identity h t) st) as [st' r] eqn:Hrun.
  cbn [fst]. apply generate_fusion_page_prefix in Hrun.
  destruct Hrun as (k & _ & Hcalls & _).
  exists (firstn k (fusion_page_calls (identity h t))). split; [exact Hcalls|].
  apply forall_firstn. unfold fusion_page_calls. rewrite Hpair.
  destruct page_queries_placeholders as (Q1 & Q2 & Q3 & Q4 & Q5 & _).
  repeat constructor; eauto.
Qed.

End Pages.

Section FusionPage.
Context {TP Conn : Type} {parser_ops : ToolParserOps TP} {db_ops : DbOps Conn}
  {core_ops : CoreOps}.

(** C10.  A fusion page always queries the database, and every query
    it makes has the parts of the identity split on the separator as
    its parameters: the calls it makes are the first [k] of its five
    queries, at least one, and all five when the page is built.  The
    split has one part more than the identity has separators, so it is
    a pair exactly when the identity holds one separator; each query has
    two placeholders, so the queries made are well formed exactly then,
    and the pair is then the head and the tail the identity was
    serialised from. *)
Theorem fusion_pair_needs_one_separator (params : Params) (parser : TP)
    (fusion : string) (st : State Conn) :
  (exists calls,
     db_calls (fst (generate_fusion_page params parser fusion st))
     = db_calls st ++ calls /\
     calls <> [] /\
     (exists k, 1 <= k <= 5 /\ calls = firstn k (fusion_page_calls fusion)) /\
     (forall page, snd (generate_fusion_page params parser fusion st) = inr page ->
                   calls = fusion_page_calls fusion) /\
     Forall (fun c => exists q, c = Select q (Some (split "--" fusion))) calls /\
     (Forall well_formed calls <-> count "--" fusion = 1)) /\
  List.length (split "--" fusion) = S (count "--" fusion) /\
  (List.length (split "--" fusion) = 2 <-> count "--" fusion = 1) /\
  (Forall well_formed (fusion_page_calls fusion) <-> count "--" fusion = 1) /\
  (forall h t, split "--" fusion = [h; t] -> fusion = identity h t).
Proof.
  destruct page_queries_placeholders as (Q1 & Q2 & Q3 & Q4 & Q5 & _).
  assert (Hwf : List.length (split "--" fusion) = 2 ->
                Forall well_formed (fusion_page_calls fusion)).
  { intros Hlen. unfold fusion_page_calls. repeat constructor; cbn; congruence. }
  split; [|split; [|split; [|split]]].
  - destruct (generate_fusion_page params parser fusion st) as [st' r] eqn:Hrun.
    cbn [fst snd]. apply generate_fusion_page_prefix in Hrun.
    destruct Hrun as (k & Hk & Hcalls & Hbuilt & _).
    exists (firstn k (fusion_page_calls fusion)).
    split; [exact Hcalls|]. split; [|split; [|split; [|split]]].
    + destruct k as [|k]; [lia|]. unfold fusion_page_calls. discriminate.
    + now exists k.
    + intros page Hpage. now rewrite (Hbuilt page Hpage).
    + apply forall_firstn. unfold fusion_page_calls. repeat constructor; eauto.
    + rewrite <- split_pair_iff. split.
      * destruct k as [|k]; [lia|]. unfold fusion_page_calls. cbn [firstn].
        intros Hall. inversion Hall as [|c l Hc _]. subst.
        cbn in Hc. now rewrite <- Hc.
      * intros Hlen. apply forall_firstn. now apply Hwf.
  - apply length_split.
  - apply split_pair_iff.
  - rewrite <- split_pair_iff. split; [|exact Hwf].
    unfold fusion_page_calls. intros Hall. inversion Hall as [|c l Hc _]. subst.
    cbn in Hc. now rewrite <- Hc.
  - apply split_pair_identity.
Qed.

(** X4.  A fusion page that is built has the same six sections in the
    same order, whatever the database returned.  The first holds the
    details of the parser; each other section holds the rows that its
    own query returned for the split identity.  Only the section of the
    protein interactions has a graph, and the graph is built from the
    rows that this section holds. *)
Theorem fusion_page_layout (params : Params) (parser : TP) (fusion : string)
    (st st' : State Conn) (page : Page) :
  generate_fusion_page params parser fusion st = (st', inr page) ->
  page_variables page = [("sample", PStr (sample params))] /\
  map section_id (page_sections page) = fusion_page_section_ids /\
  (forall s, In s (page_sections page) -> section_id s = "details" ->
     section_data s = Detail (get_fusion parser fusion) /\ section_graphs s = []) /\
  (forall s query,
     In s (page_sections page) -> In (section_id s, query) section_queries ->
     exists c rows,
       snd (db_select query (Some (split "--" fusion)) c) = inr rows /\
       section_data s = Rows rows /\
       (section_id s = "ppi" ->
          map graph_id (section_graphs s) = ["ppi_graph"] /\
          map graph_data (section_graphs s) = [create_ppi_graph rows]) /\
       (section_id s <> "ppi" -> section_graphs s = [])).
Proof.
  unfold generate_fusion_page. intros Hrun.
  apply bind_inr in Hrun. destruct Hrun as (s1 & r1 & E1 & Hrun).
  apply bind_inr in Hrun. destruct Hrun as (s2 & r2 & E2 & Hrun).
  apply bind_inr in Hrun. destruct Hrun as (s3 & r3 & E3 & Hrun).
  apply bind_inr in Hrun. destruct Hrun as (s4 & r4 & E4 & Hrun).
  apply bind_inr in Hrun. destruct Hrun as (s5 & r5 & E5 & Hrun).
  unfold ret in Hrun. injection Hrun as _ <-.
  apply select_result in E1, E2, E3, E4, E5.
  split; [reflexivity|]. split; [reflexivity|]. split.
  - intros s Hin. cbn in Hin.
    destruct Hin as [<-|[<-|[<-|[<-|[<-|[<-|[]]]]]]]; cbn;
      intros Hid; first [discriminate Hid|split; reflexivity].
  - intros s query Hin Hq. cbn in Hin.
    destruct Hin as [<-|[<-|[<-|[<-|[<-|[<-|[]]]]]]]; cbn in Hq;
      destruct Hq as [[= <-]|[[= <-]|[[= <-]|[[= <-]|[[= <-]|[]]]]]].
    + exists (db st), r1. split; [exact E1|]. cbn.
      split; [reflexivity|]. split; [intros [=]|reflexivity].
    + exists (db s1), r2. split; [exact E2|]. cbn.
      split; [reflexivity|]. split; [intros [=]|reflexivity].
    + exists (db s2), r3. split; [exact E3|]. cbn.
      split; [reflexivity|]. split; [intros _; split; reflexivity|].
      intros Hne. exfalso. now apply Hne.
    + exists (db s3), r4. split; [exact E4|]. cbn.
      split; [reflexivity|]. split; [intros [=]|reflexivity].
    + exists (db s4), r5. split; [exact E5|]. cbn.
      split; [reflexivity|]. split; [intros [=]|reflexivity].
Qed.

End FusionPage.

(** The page of the known fusion of the scenario is built, with its
    five queries made on the head and the tail gene. *)
Example built_page_calls :
  snd scenario_page_run = inr scenario_page /\
  split "--" "ABC--XYZ" = ["ABC"; "XYZ"] /\
  db_calls (fst scenario_page_run)
  = [Select variations_query (Some ["ABC"; "XYZ"]);
     Select transcripts_query (Some ["ABC"; "XYZ"]);
     Select ppi_query (Some ["ABC"; "XYZ"]);
     Select drugs_query (Some ["ABC"; "XYZ"]);
     Select diseases_query (Some ["ABC"; "XYZ"])].
Proof. vm_compute. repeat split. Qed.

(** ** Runs without a known fusion *)

Lemma filter_all {A : Type} (p : A -> bool) (l : list A) :
  (forall x, In x l -> p x = true) -> filter p l = l.
Proof.
  induction l as [|a l IH]; simpl; intros Hall; [reflexivity|].
  rewrite (Hall a) by now left. f_equal. apply IH. intros x Hx. apply Hall. now right.
Qed.

Section KnownNone.
Context {TP Conn : Type} {parser_ops : ToolParserOps TP} {db_ops : DbOps Conn}
  {core_ops : CoreOps}.

(** X6.  When the parser and the reference lookup do not raise and the
    reference list holds none of the parsed identities, then whatever
    the outcome of the run, no call is made on the database after the
    reference query, the known list is empty and the report has no
    fusion page; if the run completes, every parsed fusion is in the
    unknown list and the report is the index page alone.  A run over no
    fusion at all is such a run. *)
Theorem run_without_known_fusions (params : Params) (parser : TP)
    (st1 st : State Conn) (db_fusions : list PyVal) (r : result unit) :
  parse params = inr parser ->
  get_db_fusions (initial_state params) = (st1, inr db_fusions) ->
  (forall f, In f (fusion_ids (get_fusions parser)) -> ~ In (PStr f) db_fusions) ->
  generate_report params = (st, r) ->
  db_calls st = [Connect "fusiongdb"; Select reference_query None] /\
  known_fusions st = [] /\
  Forall (fun p => partial_template p <> "fusion") (report st) /\
  (r = inr tt ->
   unknown_fusions st = fusion_ids (get_fusions parser) /\
   report st = [generate_index params parser [] (fusion_ids (get_fusions parser))]).
Proof.
  intros Hparse Hdb Hnone Hrun.
  assert (Hfus : parsed_fusions params = fusion_ids (get_fusions parser))
    by (unfold parsed_fusions; now rewrite Hparse).
  assert (Href : reference_list params = db_fusions)
    by (unfold reference_list; now rewrite Hdb).
  assert (Hmissing : forall f, In f (parsed_fusions params) ->
                               py_in f (reference_list params) = false).
  { intros f Hf. rewrite Hfus in Hf. rewrite Href. specialize (Hnone f Hf).
    destruct (py_in f db_fusions) eqn:Hin; [|reflexivity].
    apply py_in_iff in Hin. contradiction. }
  assert (Hprefix : forall done rest,
            parsed_fusions params = done ++ rest ->
            found (reference_list params) done = []).
  { intros done rest Hat. apply filter_none. intros f Hf.
    apply Hmissing. rewrite Hat. apply in_or_app. now left. }
  destruct r as [e|[]].
  - apply generate_report_fails in Hrun.
    destruct Hrun as [Hparse' _|parser' _ Hdb'
                     |parser' done f rest _ Hat Hin K U L P S O C T F
                     |parser' done rest _ Hat Hbar K U L P S O C T F].
    + congruence.
    + congruence.
    + exfalso. apply py_in_iff in Hin.
      rewrite Hmissing in Hin; [discriminate|].
      rewrite Hat. apply in_or_app. right. now left.
    + rewrite (Hprefix done rest Hat) in *. apply map_eq_nil in T.
      rewrite C, K, T. split; [reflexivity|]. split; [reflexivity|].
      split; [constructor|discriminate].
  - apply generate_report_ok in Hrun.
    destruct Hrun as [parser' pages Hparse' K U _ _ _ _ C R T _].
    assert (parser' = parser) by congruence. subst parser'.
    assert (Hk : known_fusions st = []).
    { rewrite K. apply filter_none. exact Hmissing. }
    assert (Hu : unknown_fusions st = fusion_ids (get_fusions parser)).
    { rewrite U, <- Hfus. apply filter_all. intros f Hf. now rewrite Hmissing. }
    rewrite Hk in T. apply map_eq_nil in T. subst pages.
    rewrite Hk, Hu in R. rewrite Hk in C.
    split; [exact C|]. split; [exact Hk|]. split.
    + rewrite R. constructor; [discriminate|constructor].
    + intros _. split; assumption.
Qed.

End KnownNone.

(** ** The properties on the runs of the scenario *)

Lemma parser_error_aborts_witness :
  @parse _ strict_parser malformed_params = inl (ParserError "fusioncatcher") /\
  malformed_run = (fst malformed_run, snd malformed_run) /\
  snd malformed_run = inl (ParserError "fusioncatcher") /\
  db_calls (fst malformed_run) = [].
Proof.
  assert (Hparse : @parse _ strict_parser malformed_params
                   = inl (ParserError "fusioncatcher")) by reflexivity.
  assert (Hrun : malformed_run = (fst malformed_run, snd malformed_run))
    by (vm_compute; reflexivity).
  split; [exact Hparse|]. split; [exact Hrun|].
  pose proof (@parser_error_aborts _ _ strict_parser (table_db scenario_table)
                plain_charts malformed_params (fst malformed_run)
                (ParserError "fusioncatcher") (snd malformed_run) Hparse Hrun)
    as (Hr & Hcalls & _).
  split; [exact Hr|exact Hcalls].
Defined.

Lemma failed_run_is_partial_witness :
  nested_run
  = (fst nested_run, inl (DbError "Incorrect number of bindings supplied")) /\
  stdout (fst nested_run) = [] /\
  Forall (fun p => partial_template p = "fusion") (report (fst nested_run)).
Proof.
  assert (Hrun : nested_run
                 = (fst nested_run,
                    inl (DbError "Incorrect number of bindings supplied")))
    by (vm_compute; reflexivity).
  split; [exact Hrun|].
  pose proof (@failed_run_is_partial _ _ one_call_parser (table_db nested_table)
                plain_charts nested_params (fst nested_run)
                (DbError "Incorrect number of bindings supplied") Hrun)
    as (Hout & Hpages & _).
  split; [exact Hout|exact Hpages].
Defined.

Lemma database_connected_first_witness :
  scenario_run = (fst scenario_run, inr tt) /\
  (db_calls (fst scenario_run) = [] \/
   exists queries,
     db_calls (fst scenario_run) = Connect "fusiongdb" :: queries /\
     Forall is_select queries).
Proof.
  assert (Hrun : scenario_run = (fst scenario_run, inr tt))
    by (vm_compute; reflexivity).
  split; [exact Hrun|].
  exact (@database_connected_first _ _ one_call_parser (table_db scenario_table)
           plain_charts scenario_params (fst scenario_run) (inr tt) Hrun).
Defined.

Lemma progress_within_bounds_witness :
  scenario_run = (fst scenario_run, inr tt) /\
  NoDup (map (fun c => fst (fst c)) (progress (fst scenario_run))).
Proof.
  assert (Hrun : scenario_run = (fst scenario_run, inr tt))
    by (vm_compute; reflexivity).
  split; [exact Hrun|].
  exact (proj1 (proj2 (@progress_within_bounds _ _ one_call_parser
                         (table_db scenario_table) plain_charts scenario_params
                         (fst scenario_run) (inr tt) Hrun))).
Defined.

Lemma completed_run_cost_witness :
  scenario_run = (fst scenario_run, inr tt) /\
  List.length (db_calls (fst scenario_run))
  = 2 + 5 * List.length (known_fusions (fst scenario_run)).
Proof.
  assert (Hrun : scenario_run = (fst scenario_run, inr tt))
    by (vm_compute; reflexivity).
  split; [exact Hrun|].
  exact (proj1 (@completed_run_cost _ _ one_call_parser (table_db scenario_table)
                  plain_charts scenario_params (fst scenario_run) Hrun)).
Defined.

Lemma fusion_page_layout_witness :
  scenario_page_run = (fst scenario_page_run, inr scenario_page) /\
  map section_id (page_sections scenario_page) = fusion_page_section_ids.
Proof.
  assert (Hrun : scenario_page_run = (fst scenario_page_run, inr scenario_page))
    by (vm_compute; reflexivity).
  split; [exact Hrun|].
  exact (proj1 (proj2 (@fusion_page_layout _ _ one_call_parser
                         (table_db scenario_table) plain_charts scenario_params
                         scenario_parser "ABC--XYZ"
                         (@initial_state _ (table_db scenario_table) scenario_params)
                         (fst scenario_page_run) scenario_page Hrun))).
Defined.

Lemma run_without_known_fusions_witness :
  @parse _ one_call_parser scenario_params = inr scenario_parser /\
  foreign_lookup = (fst foreign_lookup, inr [PStr "XYZ--ABC"]) /\
  foreign_run = (fst foreign_run, inr tt) /\
  db_calls (fst foreign_run) = [Connect "fusiongdb"; Select reference_query None] /\
  known_fusions (fst foreign_run) = [].
Proof.
  assert (Hparse : @parse _ one_call_parser scenario_params = inr scenario_parser)
    by reflexivity.
  assert (Hdb : foreign_lookup = (fst foreign_lookup, inr [PStr "XYZ--ABC"]))
    by (vm_compute; reflexivity).
  assert (Hrun : foreign_run = (fst foreign_run, inr tt))
    by (vm_compute; reflexivity).
  assert (Hnone : forall f,
            In f (fusion_ids (@get_fusions _ one_call_parser scenario_parser)) ->
            ~ In (PStr f) [PStr "XYZ--ABC"])
    by (intros f [<-|[<-|[]]] [H|[]]; discriminate H).
  split; [exact Hparse|]. split; [exact Hdb|]. split; [exact Hrun|].
  pose proof (@run_without_known_fusions _ _ one_call_parser (table_db foreign_table)
                plain_charts scenario_params scenario_parser (fst foreign_lookup)
                (fst foreign_run) [PStr "XYZ--ABC"] (inr tt) Hparse Hdb Hnone Hrun)
    as (Hcalls & Hknown & _).
  split; [exact Hcalls|exact Hknown].
Defined.

Lemma page_queries_get_head_and_tail_witness :
  count "--" ("HLA-A" ++ "-")%string = 0 /\
  count "--" "NKX2-1" = 0 /\
  exists calls,
    db_calls
      (fst (@generate_fusion_page _ _ one_call_parser (table_db scenario_table)
              plain_charts scenario_params scenario_parser
              (identity "HLA-A" "NKX2-1")
              (@initial_state _ (table_db scenario_table) scenario_params)))
    = db_calls (@initial_state _ (table_db scenario_table) scenario_params) ++ calls /\
    Forall (fun c => (exists q, c = Select q (Some ["HLA-A"; "NKX2-1"])) /\
                     well_formed c) calls.
Proof.
  assert (Hh : count "--" ("HLA-A" ++ "-")%string = 0) by reflexivity.
  assert (Ht : count "--" "NKX2-1" = 0) by reflexivity.
  split; [exact Hh|]. split; [exact Ht|].
  exact (@page_queries_get_head_and_tail _ _ one_call_parser
           (table_db scenario_table) plain_charts scenario_params scenario_parser
           "HLA-A" "NKX2-1"
           (@initial_state _ (table_db scenario_table) scenario_params) Hh Ht).
Defined.

(** ** What the classification depends on *)

Lemma found_same_strings (l1 l2 : list PyVal) (fusions : list string) :
  (forall s, In (PStr s) l1 <-> In (PStr s) l2) ->
  found l1 fusions = found l2 fusions /\ missing l1 fusions = missing l2 fusions.
Proof.
  intros Hsame.
  assert (Hin : forall f, py_in f l1 = py_in f l2).
  { intros f. destruct (py_in f l1) eqn:H1, (py_in f l2) eqn:H2; try reflexivity.
    - apply py_in_iff, Hsame, py_in_iff in H1. congruence.
    - apply py_in_iff, Hsame, py_in_iff in H2. congruence. }
  unfold found, missing. split; apply filter_ext; intros f; now rewrite Hin.
Qed.

(** X13.  The classification depends on the reference list only
    through the strings it holds: two completed runs over the same
    parameters and parser, on databases whose reference lists hold the
    same strings, have the same known and unknown lists, whatever the
    order of the rows, their repetition, or rows whose pair is not a
    string. *)
Theorem classification_depends_on_strings {TP Conn1 Conn2 : Type}
    {parser_ops : ToolParserOps TP} {core_ops : CoreOps}
    (db1 : DbOps Conn1) (db2 : DbOps Conn2)
    (params : Params) (st1 : State Conn1) (st2 : State Conn2) :
  @generate_report TP Conn1 parser_ops db1 core_ops params = (st1, inr tt) ->
  @generate_report TP Conn2 parser_ops db2 core_ops params = (st2, inr tt) ->
  (forall s, In (PStr s) (@reference_list Conn1 db1 params)
             <-> In (PStr s) (@reference_list Conn2 db2 params)) ->
  known_fusions st1 = known_fusions st2 /\
  unknown_fusions st1 = unknown_fusions st2 /\
  map page_title (report st1) = map page_title (report st2).
Proof.
  intros Hrun1 Hrun2 Hsame.
  apply generate_report_ok in Hrun1, Hrun2.
  destruct Hrun1 as [parser1 pages1 _ K1 U1 _ _ _ _ _ R1 T1 _].
  destruct Hrun2 as [parser2 pages2 _ K2 U2 _ _ _ _ _ R2 T2 _].
  destruct (found_same_strings _ _ (parsed_fusions params) Hsame) as [Hf Hm].
  assert (HK : known_fusions st1 = known_fusions st2) by congruence.
  assert (HU : unknown_fusions st1 = unknown_fusions st2) by congruence.
  split; [exact HK|]. split; [exact HU|].
  rewrite R1, R2, !map_app, T1, T2, HK. reflexivity.
Qed.

Lemma classification_depends_on_strings_witness :
  scenario_run = (fst scenario_run, inr tt) /\
  messy_run = (fst messy_run, inr tt) /\
  known_fusions (fst scenario_run) = known_fusions (fst messy_run).
Proof.
  assert (Hrun1 : scenario_run = (fst scenario_run, inr tt))
    by (vm_compute; reflexivity).
  assert (Hrun2 : messy_run = (fst messy_run, inr tt))
    by (vm_compute; reflexivity).
  split; [exact Hrun1|]. split; [exact Hrun2|].
  refine (proj1 (@classification_depends_on_strings _ _ _ one_call_parser
                   plain_charts (table_db scenario_table) (messy_db scenario_table)
                   scenario_params (fst scenario_run) (fst messy_run)
                   Hrun1 Hrun2 _)).
  intros s.
  assert (R1 : @reference_list _ (table_db scenario_table) scenario_params
               = [PStr "ABC--XYZ"]) by (vm_compute; reflexivity).
  assert (R2 : @reference_list _ (messy_db scenario_table) scenario_params
               = [PNone; PStr "ABC--XYZ"; PStr "ABC--XYZ"])
    by (vm_compute; reflexivity).
  rewrite R1, R2. cbn. split.
  - intros [H|[]]. right. left. exact H.
  - intros [H|[H|[H|[]]]]; [discriminate H|left; exact H|left; exact H].
Defined.

Section Distinct.
Context {TP Conn : Type} {parser_ops : ToolParserOps TP} {db_ops : DbOps Conn}
  {core_ops : CoreOps}.

(** X14.  When the parser returns no identity twice, a completed run
    has no identity twice in the known list or in the unknown list, and
    no two fusion pages of the report have the same title. *)
Theorem distinct_fusions_distinct_pages (params : Params) (st : State Conn) :
  generate_report params = (st, inr tt) ->
  NoDup (parsed_fusions params) ->
  NoDup (known_fusions st) /\ NoDup (unknown_fusions st) /\
  NoDup (map page_title
           (filter (fun p => String.eqb (partial_template p) "fusion") (report st))).
Proof.
  intros Hrun Hnodup. apply generate_report_ok in Hrun.
  destruct Hrun as [parser pages _ K U _ _ _ _ _ R T F].
  assert (HK : NoDup (known_fusions st)) by (rewrite K; now apply NoDup_filter).
  split; [exact HK|]. split; [rewrite U; now apply NoDup_filter|].
  rewrite R, filter_app. cbn [filter].
  replace (String.eqb (partial_template (generate_index params parser
             (known_fusions st) (unknown_fusions st))) "fusion") with false
    by reflexivity.
  rewrite app_nil_r, filter_all, T; [exact HK|].
  intros p Hp. rewrite Forall_forall in F. rewrite (F p Hp). reflexivity.
Qed.

End Distinct.

Lemma distinct_fusions_distinct_pages_witness :
  scenario_run = (fst scenario_run, inr tt) /\
  NoDup (@parsed_fusions _ one_call_parser scenario_params) /\
  NoDup (known_fusions (fst scenario_run)).
Proof.
  assert (Hrun : scenario_run = (fst scenario_run, inr tt))
    by (vm_compute; reflexivity).
  assert (Hnodup : NoDup (@parsed_fusions _ one_call_parser scenario_params)).
  { change (NoDup ["ABC--XYZ"; "DEF--UVW"]).
    constructor; [intros [H|[]]; discriminate H|].
    constructor; [intros []|constructor]. }
  split; [exact Hrun|]. split; [exact Hnodup|].
  exact (proj1 (@distinct_fusions_distinct_pages _ _ one_call_parser
                  (table_db scenario_table) plain_charts scenario_params
                  (fst scenario_run) Hrun Hnodup)).
Defined.
